(** * dbt: YAML frontmatter helper and documentation-block parser

    A shallow embedding of [core/dbt/clients/yaml_helper.py] and
    [dbt/parser/docs.py], with the properties of their specification
    stated and settled over it.

    Python values are modelled as follows: [str] is [string] (one [ascii]
    per code point, so the model covers the Latin-1 range), [int] is [Z],
    a [dict] keyed by strings is a [gmap string _], a generator is the
    finite trace of what it yields and how it ends, and an exception is a
    constructor of an error type carried by [result]. *)

From Stdlib Require Import ZArith String Ascii List Bool Lia.
From Stdlib Require Import Numbers.DecimalString.
From stdpp Require Import base option list strings gmap.

Local Open Scope string_scope.
Local Open Scope Z_scope.

(** ** Outcomes of a Python call *)

Inductive result (E A : Type) : Type :=
| Returned (a : A)
| Raised (e : E).
Arguments Returned {E A} a.
Arguments Raised {E A} e.

(** ** The fragment of the Python string and list library the code calls *)

Module Py.

Definition newline : ascii := "010"%char.
Definition nl : string := String newline "".

(** [str.isspace] on one code point, which is also the class [\s] of a
    [str] pattern: TAB..CR, FS..US, SPACE, NEL and NBSP below 256. *)
Definition isspace (c : ascii) : bool :=
  let n := N_of_ascii c in
  ((9 <=? n) && (n <=? 13) || (28 <=? n) && (n <=? 32)
   || (n =? 133) || (n =? 160))%N.

(** [str(i)] for an [int]. *)
Definition str_of_int (z : Z) : string :=
  NilZero.string_of_int (Z.to_int z).

Fixpoint spaces (n : nat) : string :=
  match n with
  | O => ""
  | S k => String " " (spaces k)
  end.

(** [s.ljust(width)] *)
Definition ljust (s : string) (width : Z) : string :=
  s +:+ spaces (Z.to_nat (width - Z.of_nat (String.length s))).

(** [s.split(sep)] for a one-character separator: never empty. *)
Fixpoint split (sep : ascii) (s : string) : list string :=
  match s with
  | "" => [""]
  | String c s' =>
      if Ascii.eqb c sep then "" :: split sep s'
      else match split sep s' with
           | [] => [String c ""]
           | w :: ws => String c w :: ws
           end
  end.

(** [sep.join(l)] *)
Fixpoint join (sep : string) (l : list string) : string :=
  match l with
  | [] => ""
  | [x] => x
  | x :: rest => x +:+ sep +:+ join sep rest
  end.

(** [range(start, stop)] *)
Definition range (start stop : Z) : list Z :=
  map (fun k => start + Z.of_nat k) (seq 0 (Z.to_nat (stop - start))).

(** How a slice bound is read against a sequence of length [len]: a
    negative bound counts from the end, and every bound is clamped. *)
Definition slice_bound (len : nat) (i : Z) : nat :=
  if i <? 0 then Z.to_nat (Z.max (i + Z.of_nat len) 0)
  else Nat.min (Z.to_nat i) len.

(** [l[start:stop]] *)
Definition slice {A} (l : list A) (start stop : Z) : list A :=
  let a := slice_bound (length l) start in
  let b := slice_bound (length l) stop in
  firstn (b - a) (skipn a l).

(** [zip(xs, ys)] stops with the shorter argument. *)
Definition zip {A B} (xs : list A) (ys : list B) : list (A * B) :=
  combine xs ys.

(** [s.endswith(c)] for a one-character [c]. *)
Fixpoint endswith_char (c : ascii) (s : string) : bool :=
  match s with
  | "" => false
  | String d "" => Ascii.eqb d c
  | String _ s' => endswith_char c s'
  end.

(** [s.startswith(p)] *)
Fixpoint startswith (p s : string) : bool :=
  match p, s with
  | "", _ => true
  | String a p', String b s' => Ascii.eqb a b && startswith p' s'
  | String _ _, "" => false
  end.

(** [p in s] *)
Fixpoint contains (p s : string) : bool :=
  startswith p s
  || match s with
     | "" => false
     | String _ s' => contains p s'
     end.

(** [s.replace(old, new)] for a non-empty [old]: the occurrences are
    taken left to right and do not overlap. [skip] counts the characters
    of the current occurrence that are still to be dropped. *)
Fixpoint replace_from (old new : string) (skip : nat) (s : string) : string :=
  match s with
  | "" => ""
  | String c s' =>
      match skip with
      | S k => replace_from old new k s'
      | O =>
          if startswith old s
          then new +:+ replace_from old new (String.length old - 1) s'
          else String c (replace_from old new 0 s')
      end
  end.

(** With an empty [old], Python puts [new] before every character and
    at the end. *)
Fixpoint intersperse_all (new s : string) : string :=
  match s with
  | "" => new
  | String c s' => new +:+ String c (intersperse_all new s')
  end.

Definition replace (old new s : string) : string :=
  match old with
  | "" => intersperse_all new s
  | _ => replace_from old new 0 s
  end.

End Py.

(** ** The two compiled patterns of [yaml_helper]

    [FRONTMATTER_DELIMITER = re.compile(r"^---\s*$", re.MULTILINE)] and
    [NON_WHITESPACE = re.compile(r"\S")], each embedded as the matcher the
    regular-expression engine runs for it. *)

Module Re.

(** [\s*$] tried at the head of [s]. The star is greedy and gives back
    one character at a time; under [MULTILINE], [$] holds at the end of
    the text and just before a newline. The result is the text taken by
    the star and what follows it. *)
Fixpoint ws_then_eol (s : string) : option (string * string) :=
  match s with
  | "" => Some ("", "")
  | String c s' =>
      if Py.isspace c then
        match ws_then_eol s' with
        | Some (w, rest) => Some (String c w, rest)
        | None => if Ascii.eqb c Py.newline then Some ("", s) else None
        end
      else None
  end.

(** [---\s*$] tried at the head of [s], where [^] is known to hold. *)
Definition delimiter_at (s : string) : option (string * string) :=
  match s with
  | String "-" (String "-" (String "-" r)) =>
      match ws_then_eol r with
      | Some (w, rest) => Some ("---" +:+ w, rest)
      | None => None
      end
  | _ => None
  end.

(** A match object, as the text before it, the text matched and the
    text after it. *)
Record Match := { before : string; matched : string; after : string }.

(** [FRONTMATTER_DELIMITER.search] from the head of [s]. Under
    [MULTILINE], [^] holds at the start of the text and right after a
    newline: [bol] says whether it holds at the head. *)
Fixpoint delimiter_search (bol : bool) (s : string) : option Match :=
  match s with
  | "" => None
  | String c s' =>
      match (if bol then delimiter_at s else None) with
      | Some (m, rest) => Some {| before := ""; matched := m; after := rest |}
      | None =>
          match delimiter_search (Ascii.eqb c Py.newline) s' with
          | Some mt =>
              Some {| before := String c (before mt);
                      matched := matched mt; after := after mt |}
          | None => None
          end
      end
  end.

(** Whether [^] holds right after the matched text [m]. *)
Definition ends_with_newline (m : string) : bool :=
  Py.endswith_char Py.newline m.

(** [FRONTMATTER_DELIMITER.split(s, maxsplit)] for a positive
    [maxsplit]: at most [maxsplit] cuts, each search resuming where the
    previous match ended. The pattern has no group and never matches
    the empty text. *)
Fixpoint delimiter_split_from (maxsplit : nat) (bol : bool) (s : string)
  : list string :=
  match maxsplit with
  | O => [s]
  | S n =>
      match delimiter_search bol s with
      | None => [s]
      | Some mt =>
          before mt
            :: delimiter_split_from n (ends_with_newline (matched mt)) (after mt)
      end
  end.

Definition delimiter_split (s : string) (maxsplit : nat) : list string :=
  delimiter_split_from maxsplit true s.

(** [NON_WHITESPACE.search(s)], as the first character it finds. *)
Fixpoint non_whitespace_search (s : string) : option ascii :=
  match s with
  | "" => None
  | String c s' => if Py.isspace c then non_whitespace_search s' else Some c
  end.

End Re.


(** ** [core/dbt/clients/yaml_helper.py] *)

Module YamlHelper.

(** What the module can raise. *)
Inductive exn : Type :=
| TypeError
| AttributeError
| ValueError
| IndexError
| DbtValidationError (msg : string).

(** The position a YAML error points at; [line] counts from 0. *)
Record Mark := { line : Z; column : Z }.

(** A decode error of the YAML library. [MarkedYAMLError] has the
    attribute [problem_mark], which may hold [None]; the other errors
    have no such attribute. [text] is [str(e)]. *)
Inductive YAMLError : Type :=
| PlainYAMLError (text : string)
| MarkedYAMLError (problem_mark : option Mark) (text : string).

Definition str_of_error (e : YAMLError) : string :=
  match e with
  | PlainYAMLError t => t
  | MarkedYAMLError _ t => t
  end.

(** [hasattr(e, "problem_mark")] *)
Definition has_problem_mark (e : YAMLError) : bool :=
  match e with
  | PlainYAMLError _ => false
  | MarkedYAMLError _ _ => true
  end.

Definition dashes : string := "------------------------------".

(** [YAML_ERROR_MESSAGE.format(line_number=.., nice_error=..,
    raw_error=..)], the template being stripped of its outer blanks. *)
Definition YAML_ERROR_MESSAGE (line_number : Z) (nice_error raw_error : string)
  : string :=
  "Syntax error near line " +:+ Py.str_of_int line_number +:+ Py.nl
    +:+ dashes +:+ Py.nl
    +:+ nice_error +:+ Py.nl
    +:+ Py.nl
    +:+ "Raw Error:" +:+ Py.nl
    +:+ dashes +:+ Py.nl
    +:+ raw_error.

Definition line_no (i : Z) (line : string) (width : Z) : string :=
  let line_number := Py.ljust (Py.str_of_int i) width in
  line_number +:+ "| " +:+ line.

Definition prefix_with_line_numbers (string : string) (no_start no_end : Z)
  : String.string :=
  let line_list := Py.split Py.newline string in
  let numbers := Py.range no_start no_end in
  let relevant_lines := Py.slice line_list no_start no_end in
  Py.join Py.nl
    (map (fun '(i, line) => line_no (i + 1) line 3)
         (Py.zip numbers relevant_lines)).

Definition contextualized_yaml_error (raw_contents : string) (error : YAMLError)
  : result exn string :=
  match error with
  | MarkedYAMLError (Some mark) _ =>
      let min_line := Z.max (line mark - 3) 0 in
      let max_line := line mark + 4 in
      let nice_error := prefix_with_line_numbers raw_contents min_line max_line in
      Returned (YAML_ERROR_MESSAGE (line mark + 1) nice_error (str_of_error error))
  | MarkedYAMLError None _ => Raised AttributeError
  | PlainYAMLError _ => Raised AttributeError
  end.

(** *** The values on which line 78 computes

    The guard of [parse_yaml_frontmatter] applies [!=] and [len] to
    objects of several types, so these two operations are modelled on
    tagged values. *)
Inductive pyobj : Type :=
| PyBool (b : bool)
| PyInt (z : Z)
| PyStrList (l : list string).

(** [a == b]: a [bool] is an [int]; a list equals only a list. *)
Definition py_eq (a b : pyobj) : bool :=
  match a, b with
  | PyBool x, PyBool y => Bool.eqb x y
  | PyInt x, PyInt y => x =? y
  | PyBool x, PyInt y | PyInt y, PyBool x => (if x then 1 else 0) =? y
  | PyStrList x, PyStrList y => bool_decide (x = y)
  | _, _ => false
  end.

(** [a != b] *)
Definition py_ne (a b : pyobj) : pyobj := PyBool (negb (py_eq a b)).

(** [len(o)]: only the sequence has a length. *)
Definition py_len (o : pyobj) : result exn Z :=
  match o with
  | PyStrList l => Returned (Z.of_nat (length l))
  | PyBool _ | PyInt _ => Raised TypeError
  end.

(** The error policy, [Literal['warn_or_error', 'ignore']]. *)
Inductive on_error_policy : Type := WarnOrError | Ignore.

Definition is_warn_or_error (p : on_error_policy) : bool :=
  match p with WarnOrError => true | Ignore => false end.

(** *** Calls that may raise and that may use the warning channel

    The state is the list of the values handed to the warn-or-escalate
    channel so far, oldest first. *)
Definition M (A : Type) : Type := list exn -> result exn A * list exn.

Definition ret {A} (a : A) : M A := fun log => (Returned a, log).
Definition raise {A} (e : exn) : M A := fun log => (Raised e, log).
Definition bind {A B} (m : M A) (k : A -> M B) : M B :=
  fun log =>
    match m log with
    | (Returned a, log') => k a log'
    | (Raised e, log') => (Raised e, log')
    end.
Definition lift {A} (r : result exn A) : M A := fun log => (r, log).

Declare Scope py_scope.
Delimit Scope py_scope with py.
Notation "x <- m ;; k" := (bind m (fun x => k))
  (at level 100, m at next level, right associativity) : py_scope.
Notation "m ;;; k" := (bind m (fun _ => k))
  (at level 100, right associativity) : py_scope.

Section Frontmatter.

(** The decoded YAML document, whatever the YAML library builds. *)
Variable yaml_value : Type.

(** [yaml.load(contents, Loader=SafeLoader)]: the YAML library, which
    is not part of dbt. [None] is Python's [None], the value of an
    empty document. *)
Variable yaml_load : string -> YAMLError + option yaml_value.

(** The process-wide strictness configuration: whether a warning is
    escalated to an error. *)
Variable warn_error : bool.

(** Modelled from the spec: the warn-or-escalate channel
    [dbt.events.functions.warn_or_error], which is not in the sources.
    Given a validation error, it "either logs it as a warning and
    returns, or raises it as a fatal error, per process-wide strictness
    configuration". Every value it is given is recorded in the state. *)
Definition warn_or_error (exc : exn) : M unit :=
  fun log =>
    let log' := (log ++ [exc])%list in
    if warn_error then (Raised exc, log') else (Returned tt, log').

Definition safe_load (contents : string) : YAMLError + option yaml_value :=
  yaml_load contents.

Definition load_yaml_text (contents : string) : result exn (option yaml_value) :=
  match safe_load contents with
  | inr v => Returned v
  | inl e =>
      match
        (if has_problem_mark e then contextualized_yaml_error contents e
         else Returned (str_of_error e))
      with
      | Returned error => Raised (DbtValidationError error)
      | Raised x => Raised x
      end
  end.

(** Lines 86 to 94: what the [except] clause does with the decode
    error [e]. *)
Definition frontmatter_decode_failed (content : string)
    (on_error : on_error_policy) (e : YAMLError)
  : M (option yaml_value * string) :=
  ((if is_warn_or_error on_error then
      error <- lift (if has_problem_mark e
                     then contextualized_yaml_error content e
                     else Returned (str_of_error e)) ;;
      let error := "Error parsing YAML frontmatter!" +:+ error in
      warn_or_error (DbtValidationError error)
    else ret tt) ;;;
   ret (None, content))%py.

(** Lines 82 to 96: what follows the guard, for the segments [parts]. *)
Definition frontmatter_of_parts (content : string)
    (on_error : on_error_policy) (parts : list string)
  : M (option yaml_value * string) :=
  match Py.slice parts 1 (Z.of_nat (length parts)) with
  | [yaml_content; after_footer] =>
      match safe_load yaml_content with
      | inr parsed_yaml => ret (parsed_yaml, after_footer)
      | inl e => frontmatter_decode_failed content on_error e
      end
  | _ => raise ValueError
  end.

(** Line 78, [len(parts != 3) or NON_WHITESPACE.search(parts[0]) is
    not None]: [or] evaluates its right operand only when the left
    one is falsy. *)
Definition frontmatter_guard (parts : list string) : result exn bool :=
  match py_len (py_ne (PyStrList parts) (PyInt 3)) with
  | Raised e => Raised e
  | Returned n =>
      if negb (n =? 0) then Returned true
      else match parts with
           | [] => Raised IndexError
           | p0 :: _ => Returned (bool_decide (Re.non_whitespace_search p0 <> None))
           end
  end.

Definition parse_yaml_frontmatter (content : string)
    (on_error : on_error_policy)
  : M (option yaml_value * string) :=
  (let parts := Re.delimiter_split content 2 in
   skip <- lift (frontmatter_guard parts) ;;
   if skip : bool then ret (None, content)
   else frontmatter_of_parts content on_error parts)%py.

(** The function returns the match object or [None]; the caller
    reads it as a truth value. *)
Definition maybe_has_yaml_frontmatter (content : string) : option Re.Match :=
  Re.delimiter_search true content.

(** The truth value of an optional match object. *)
Definition truthy (m : option Re.Match) : bool :=
  match m with Some _ => true | None => false end.

End Frontmatter.

End YamlHelper.

(** ** [dbt/parser/docs.py] *)

Module Docs.

(** [os.path.join(a, b)] on a POSIX system. *)
Definition path_join (a b : string) : string :=
  if Py.startswith "/" b then b
  else if (String.eqb a "" || Py.endswith_char "/" a)%bool then a +:+ b
  else a +:+ "/" +:+ b.

(** A file found by the discovery collaborator. *)
Record FileMatch := {
  absolute_path : string;
  relative_path : string;
  searched_path : string
}.

Record UnparsedDocumentationFile := {
  root_path : string;
  resource_type : string;
  path : string;
  original_file_path : string;
  package_name : string;
  file_contents : string
}.

(** The record built from [merged]: the serialized file with the three
    keys [name], [unique_id] and [block_contents] merged in. *)
Record ParsedDocumentation := {
  docfile : UnparsedDocumentationFile;
  name : string;
  unique_id : string;
  block_contents : string
}.

(** The template syntax tree of [jinja2.nodes], as far as the parser
    looks into it. Only an [Output] node has the attribute [nodes] and
    only a [TemplateData] node has the attribute [data]; [OtherNode]
    stands for a node of any other class ([If], [For], [Name], [Const],
    [Call], ...), with its child nodes. The arguments and defaults of a
    macro are expressions and hold no macro definition, so they are
    left out. *)
#[warnings="-register-all"]
Inductive Node : Type :=
| Template (body : list Node)
| Macro (name : string) (body : list Node)
| Output (nodes : list Node)
| TemplateData (data : string)
| OtherNode (children : list Node).

Inductive exn : Type :=
| AttributeError
| KeyError (key : string)
| TemplateSyntaxError (msg : string)
| DuplicateResourceError (previous new : ParsedDocumentation).

(** [ast.find_all(jinja2.nodes.Macro)]: every descendant that is a
    macro definition, parents before children, in document order; the
    node itself is not a candidate. A macro is given by its name and
    its body. *)
Fixpoint find_all_macros (n : Node) : list (string * list Node) :=
  let fix descend (l : list Node) : list (string * list Node) :=
    match l with
    | [] => []
    | child :: rest =>
        (match child with
         | Macro nm b => [(nm, b)]
         | _ => []
         end ++ find_all_macros child ++ descend rest)%list
    end in
  match n with
  | Template b => descend b
  | Macro _ b => descend b
  | Output ns => descend ns
  | TemplateData _ => []
  | OtherNode cs => descend cs
  end.

(** [node.nodes] *)
Definition attr_nodes (n : Node) : result exn (list Node) :=
  match n with
  | Output ns => Returned ns
  | _ => Raised AttributeError
  end.

(** [node.data] *)
Definition attr_data (n : Node) : result exn string :=
  match n with
  | TemplateData d => Returned d
  | _ => Raised AttributeError
  end.

(** Lines 68 to 71: the contents of a block, from the body of its
    macro. [and] reads [macro.body[0].nodes] only when the body is not
    empty. *)
Definition macro_contents (body : list Node) : result exn string :=
  match body with
  | [] => Returned ""
  | first :: _ =>
      match attr_nodes first with
      | Raised e => Raised e
      | Returned [] => Returned ""
      | Returned (n0 :: _) => attr_data n0
      end
  end.

(** What a generator does, as the finite trace of its run. *)
Inductive gen (A : Type) : Type :=
| Done
| Yielded (a : A) (rest : gen A)
| Failed (e : exn).
Arguments Done {A}.
Arguments Yielded {A} a rest.
Arguments Failed {A} e.

(** The values a generator yields before it ends. *)
Fixpoint gen_items {A} (g : gen A) : list A :=
  match g with
  | Done => []
  | Yielded a rest => a :: gen_items rest
  | Failed _ => []
  end.

(** How the generator ends: exhausted, or with an exception. *)
Fixpoint gen_end {A} (g : gen A) : option exn :=
  match g with
  | Done => None
  | Yielded _ rest => gen_end rest
  | Failed e => Some e
  end.

(** One generator after another: the second runs only if the first
    ends without an exception. *)
Fixpoint gen_then {A} (g1 g2 : gen A) : gen A :=
  match g1 with
  | Done => g2
  | Yielded a rest => Yielded a (gen_then rest g2)
  | Failed e => Failed e
  end.

(** One turn of a [for] loop whose body may [continue], [yield] once or
    raise. *)
Inductive turn (A : Type) : Type :=
| Continue
| Yield (a : A)
| Throw (e : exn).
Arguments Continue {A}.
Arguments Yield {A} a.
Arguments Throw {A} e.

Section Parser.

(** [dbt.utils.DOCS_PREFIX], a constant of a module that is not in
    the sources. *)
Variable DOCS_PREFIX : string.

(** A project configuration, and [BaseParser.get_fqn]. *)
Variable project : Type.
Variable get_fqn : string -> project -> list string.

(** [env.parse]: the template engine, which is not part of dbt. It
    gives a syntax tree or raises a syntax error. *)
Variable jinja_parse : string -> string + Node.

(** [dbt.clients.system.find_matching(root_dir, relative_dirs,
    pattern)] and [load_file_contents(path, strip=False)]: discovery
    and file reading, external collaborators. *)
Variable find_matching : string -> list string -> string -> list FileMatch.
Variable load_file_contents : string -> string.

(** [NodeType.Documentation] *)
Definition NodeType_Documentation : string := "documentation".

(** [load_file]. The generator reads the files one by one; [parts]
    and [name], which it computes from the relative path, are not
    used. *)
Definition load_file (package_name : string) (root_dir : string)
    (relative_dirs : list string) : list UnparsedDocumentationFile :=
  let extensions := ["[!.#~]*.md"; "[!.#~]*.sql"] in
  let file_matches :=
    flat_map (fun extension => find_matching root_dir relative_dirs extension)
             extensions in
  map (fun file_match =>
         let file_contents := load_file_contents (absolute_path file_match) in
         let path := relative_path file_match in
         let original_file_path := path_join (searched_path file_match) path in
         {| root_path := root_dir;
            resource_type := NodeType_Documentation;
            path := path;
            original_file_path := original_file_path;
            package_name := package_name;
            file_contents := file_contents |})
      file_matches.

(** Lines 53 to 80: the body of the loop over the macros. *)
Definition parse_macro (all_projects : gmap string project)
    (docfile : UnparsedDocumentationFile) (macro : string * list Node)
  : turn ParsedDocumentation :=
  let key := fst macro in
  if negb (Py.startswith DOCS_PREFIX key) then Continue
  else
    let name := Py.replace DOCS_PREFIX "" key in
    let unique_id := package_name docfile +:+ "." +:+ name in
    match all_projects !! package_name docfile with
    | None => Throw (KeyError (package_name docfile))
    | Some config =>
        let fqn := get_fqn (path docfile) config in
        match macro_contents (snd macro) with
        | Raised e => Throw e
        | Returned contents =>
            Yield {| docfile := docfile;
                     name := name;
                     unique_id := unique_id;
                     block_contents := contents |}
        end
    end.

Fixpoint parse_macros (all_projects : gmap string project)
    (docfile : UnparsedDocumentationFile) (macros : list (string * list Node))
  : gen ParsedDocumentation :=
  match macros with
  | [] => Done
  | macro :: rest =>
      match parse_macro all_projects docfile macro with
      | Continue => parse_macros all_projects docfile rest
      | Yield parsed => Yielded parsed (parse_macros all_projects docfile rest)
      | Throw e => Failed e
      end
  end.

(** Lines 52 to 80, for a template that has been parsed to [ast]. *)
Definition parse_ast (all_projects : gmap string project)
    (docfile : UnparsedDocumentationFile) (ast : Node)
  : gen ParsedDocumentation :=
  parse_macros all_projects docfile (find_all_macros ast).

Definition parse (all_projects : gmap string project)
    (root_project_config : project) (docfile : UnparsedDocumentationFile)
  : gen ParsedDocumentation :=
  match jinja_parse (file_contents docfile) with
  | inl msg => Failed (TemplateSyntaxError msg)
  | inr ast => parse_ast all_projects docfile ast
  end.

(** Modelled from the spec: [dbt.exceptions.raise_duplicate_resource_name],
    which is not in the sources. It must "fail with a
    DuplicateResourceError naming both the previously stored record
    and the new one". *)
Definition raise_duplicate_resource_name (node_1 node_2 : ParsedDocumentation)
  : result exn unit :=
  Raised (DuplicateResourceError node_1 node_2).

(** Lines 87 to 92: the inner loop, run on the trace of the records
    of one file. The result is how the loop ends, with the dictionary
    [to_return] as it is then. *)
Fixpoint collect (records : gen ParsedDocumentation)
    (to_return : gmap string ParsedDocumentation)
  : result exn unit * gmap string ParsedDocumentation :=
  match records with
  | Done => (Returned tt, to_return)
  | Failed e => (Raised e, to_return)
  | Yielded parsed rest =>
      match to_return !! unique_id parsed with
      | Some stored =>
          match raise_duplicate_resource_name stored parsed with
          | Raised e => (Raised e, to_return)
          | Returned _ => collect rest (<[unique_id parsed := parsed]> to_return)
          end
      | None => collect rest (<[unique_id parsed := parsed]> to_return)
      end
  end.

(** Lines 86 to 92: the outer loop over the files. *)
Fixpoint collect_files (all_projects : gmap string project)
    (root_project : project) (docfiles : list UnparsedDocumentationFile)
    (to_return : gmap string ParsedDocumentation)
  : result exn unit * gmap string ParsedDocumentation :=
  match docfiles with
  | [] => (Returned tt, to_return)
  | docfile :: rest =>
      match collect (parse all_projects root_project docfile) to_return with
      | (Returned _, to_return') =>
          collect_files all_projects root_project rest to_return'
      | (Raised e, to_return') => (Raised e, to_return')
      end
  end.

(** [load_and_parse]: what the call returns or raises, and the
    dictionary [to_return] as it is when the call ends. *)
Definition load_and_parse (package_name : string) (root_project : project)
    (all_projects : gmap string project) (root_dir : string)
    (relative_dirs : list string)
  : result exn (gmap string ParsedDocumentation)
    * gmap string ParsedDocumentation :=
  match collect_files all_projects root_project
          (load_file package_name root_dir relative_dirs) ∅ with
  | (Returned _, to_return) => (Returned to_return, to_return)
  | (Raised e, to_return) => (Raised e, to_return)
  end.

(** The records the batch yields when it is run to its end: those of
    each file in turn, up to the first file whose scan raises. *)
Definition batch_records (all_projects : gmap string project)
    (root_project : project) (docfiles : list UnparsedDocumentationFile)
  : gen ParsedDocumentation :=
  foldr (fun docfile rest => gen_then (parse all_projects root_project docfile) rest)
        Done docfiles.

End Parser.

End Docs.

(** ** Documents and stand-ins used in the examples *)

Definition doc_round_trip : string :=
  "---" +:+ Py.nl +:+ "a: 1" +:+ Py.nl +:+ "---" +:+ Py.nl +:+ "BODY".

Definition doc_malformed : string :=
  "---" +:+ Py.nl +:+ "a: [" +:+ Py.nl +:+ "---" +:+ Py.nl +:+ "BODY".

Definition doc_plain : string := "no frontmatter here".

Definition doc_text_first : string := "title" +:+ Py.nl +:+ doc_round_trip.

Definition doc_one_delimiter : string := "---" +:+ Py.nl +:+ "BODY".

(** [doc_malformed] after two blank lines. *)
Definition doc_blank_lines_first : string := Py.nl +:+ Py.nl +:+ doc_malformed.

(** A stand-in for the YAML library on the two middle segments of the
    documents above: the first decodes to the mapping of [a] to [1], the
    second is reported as an error at the end of the flow sequence. *)
Definition sample_yaml_load (s : string)
  : YamlHelper.YAMLError + option (list (string * Z)) :=
  if String.eqb s (Py.nl +:+ "a: 1" +:+ Py.nl) then inr (Some [("a", 1)])
  else if String.eqb s (Py.nl +:+ "a: [" +:+ Py.nl) then
    inl (YamlHelper.MarkedYAMLError
           (Some {| YamlHelper.line := 2; YamlHelper.column := 0 |})
           "while parsing a flow node")
  else inr None.

(** A document of twenty lines, the eleventh of which is in error. *)
Definition doc_twenty_lines : string :=
  Py.join Py.nl (map (fun i => "key" +:+ Py.str_of_int i +:+ ": v") (Py.range 0 20)).

(** ** The context window, as the specification words it

    The lines whose 0-based index lies in [[mark_line - 3, mark_line + 4)],
    the lower bound being at least 0 and the upper bound at most the
    number of lines, each with its index. *)
Definition context_window (lines : list string) (mark_line : Z)
  : list (nat * string) :=
  let lo := Z.to_nat (Z.max (mark_line - 3) 0) in
  let hi := Nat.min (Z.to_nat (mark_line + 4)) (length lines) in
  map (fun i => (i, nth i lines "")) (seq lo (hi - lo)).

(** Each line of the window after its 1-based number, left-justified to
    width 3, and a bar. *)
Definition render_window (w : list (nat * string)) : string :=
  Py.join Py.nl
    (map (fun '(i, l) =>
            Py.ljust (Py.str_of_int (Z.of_nat i + 1)) 3 +:+ "| " +:+ l) w).

(** ** Templates and collaborators used in the examples *)

Definition dbt_docs_prefix : string := "dbt_docs__".

Definition sample_docfile : Docs.UnparsedDocumentationFile :=
  {| Docs.root_path := "/project";
     Docs.resource_type := "documentation";
     Docs.path := "overview.md";
     Docs.original_file_path := "docs/overview.md";
     Docs.package_name := "pkg";
     Docs.file_contents := "{% docs foo %}hello{% enddocs %}" |}.

Definition sample_projects : gmap string unit := {[ "pkg" := tt ]}.

Definition sample_get_fqn (path : string) (config : unit) : list string :=
  ["pkg"; path].

(** The block [foo] that holds the text [hello], its tree, and the
    record expected for it. *)
Definition macro_hello : string * list Docs.Node :=
  ("dbt_docs__foo", [Docs.Output [Docs.TemplateData "hello"]]).

Definition ast_hello : Docs.Node :=
  Docs.Template [Docs.Macro (fst macro_hello) (snd macro_hello)].

Definition parsed_hello : Docs.ParsedDocumentation :=
  {| Docs.docfile := sample_docfile;
     Docs.name := "foo";
     Docs.unique_id := "pkg.foo";
     Docs.block_contents := "hello" |}.

(** A block whose own name holds the prefix again. *)
Definition macro_repeated_prefix : string * list Docs.Node :=
  ("dbt_docs__a_dbt_docs__b", [Docs.Output [Docs.TemplateData "text"]]).

Definition ast_repeated_prefix : Docs.Node :=
  Docs.Template
    [Docs.Macro (fst macro_repeated_prefix) (snd macro_repeated_prefix)].

(** A block whose body starts with a conditional, not with text. *)
Definition macro_conditional : string * list Docs.Node :=
  ("dbt_docs__cond", [Docs.OtherNode [Docs.Output [Docs.TemplateData "shown"]]]).

Definition ast_conditional : Docs.Node :=
  Docs.Template [Docs.Macro (fst macro_conditional) (snd macro_conditional)].

(** A block whose body starts with a printed expression. *)
Definition macro_expression : string * list Docs.Node :=
  ("dbt_docs__expr", [Docs.Output [Docs.OtherNode []; Docs.TemplateData " text"]]).

(** Discovery that finds two Markdown files, both of which define the
    block [foo]. *)
Definition sample_find_matching (root_dir : string) (relative_dirs : list string)
    (pattern : string) : list Docs.FileMatch :=
  if String.eqb pattern "[!.#~]*.md" then
    [ {| Docs.absolute_path := "/project/docs/a.md";
         Docs.relative_path := "a.md";
         Docs.searched_path := "docs" |};
      {| Docs.absolute_path := "/project/docs/b.md";
         Docs.relative_path := "b.md";
         Docs.searched_path := "docs" |} ]
  else [].

Definition sample_load_file_contents (absolute_path : string) : string :=
  "{% docs foo %}hello{% enddocs %}".

Definition sample_jinja_parse (contents : string) : string + Docs.Node :=
  inr ast_hello.

(** The registry holds exactly the records of [seen], each under its
    unique identifier. *)
Definition registry_of (seen : list Docs.ParsedDocumentation)
    (registry : gmap string Docs.ParsedDocumentation) : Prop :=
  forall k r, registry !! k = Some r <-> In r seen /\ Docs.unique_id r = k.

(** ** Notions used to state further properties *)

(** Every character of [s] is whitespace. *)
Fixpoint all_space (s : string) : bool :=
  match s with
  | "" => true
  | String c s' => Py.isspace c && all_space s'
  end.

(** A text the delimiter pattern can match: three hyphens, then
    whitespace only. *)
Definition delimiter_text (d : string) : Prop :=
  exists w, d = "---" +:+ w /\ all_space w = true.

(** The end of [before] is the start of a line: nothing precedes it, or
    a newline does. *)
Definition at_line_start (before : string) : Prop :=
  before = "" \/ Py.endswith_char Py.newline before = true.

(** The start of [after] is the end of a line: nothing follows, or a
    newline does. *)
Definition at_line_end (after : string) : Prop :=
  after = "" \/ Py.startswith Py.nl after = true.

(** Some line of [content] starts with a delimiter text that runs to the
    end of a line. *)
Definition has_delimiter_line (content : string) : Prop :=
  exists before d after,
    content = before +:+ d +:+ after
    /\ at_line_start before /\ delimiter_text d /\ at_line_end after.

(** [node.iter_child_nodes()], for the fields the tree keeps. *)
Definition iter_child_nodes (n : Docs.Node) : list Docs.Node :=
  match n with
  | Docs.Template b => b
  | Docs.Macro _ b => b
  | Docs.Output ns => ns
  | Docs.TemplateData _ => []
  | Docs.OtherNode cs => cs
  end.

(** The macro a node defines, if it is a macro definition. *)
Definition macro_of (n : Docs.Node) : list (string * list Docs.Node) :=
  match n with
  | Docs.Macro nm b => [(nm, b)]
  | _ => []
  end.

(** [d] lies strictly below [n] in the tree. *)
Inductive descendant (d : Docs.Node) : Docs.Node -> Prop :=
| descendant_child n : In d (iter_child_nodes n) -> descendant d n
| descendant_deeper n c :
    In c (iter_child_nodes n) -> descendant d c -> descendant d n.

(** A template with a block inside the branch of a conditional inside
    another block. *)
Definition ast_nested : Docs.Node :=
  Docs.Template
    [Docs.Macro "dbt_docs__outer"
       [Docs.OtherNode
          [Docs.Macro "dbt_docs__inner" [Docs.Output [Docs.TemplateData "deep"]]]]].

(** A second record for the block [foo], from another file. *)
Definition parsed_hello_again : Docs.ParsedDocumentation :=
  {| Docs.docfile :=
       {| Docs.root_path := "/project";
          Docs.resource_type := "documentation";
          Docs.path := "other.md";
          Docs.original_file_path := "docs/other.md";
          Docs.package_name := "pkg";
          Docs.file_contents := "{% docs foo %}again{% enddocs %}" |};
     Docs.name := "foo";
     Docs.unique_id := "pkg.foo";
     Docs.block_contents := "again" |}.

(** Discovery that finds one Markdown file. *)
Definition single_find_matching (root_dir : string) (relative_dirs : list string)
    (pattern : string) : list Docs.FileMatch :=
  if String.eqb pattern "[!.#~]*.md" then
    [ {| Docs.absolute_path := "/project/docs/a.md";
         Docs.relative_path := "a.md";
         Docs.searched_path := "docs" |} ]
  else [].

(** How a loop over a generator ends when no identifier is contested. *)
Definition end_result (g : Docs.gen Docs.ParsedDocumentation)
  : result Docs.exn unit :=
  match Docs.gen_end g with
  | None => Returned tt
  | Some e => Raised e
  end.

(** A stand-in for the YAML library that rejects every text without
    giving a position. *)
Definition unreadable_yaml_load (s : string)
  : YamlHelper.YAMLError + option (list (string * Z)) :=
  inl (YamlHelper.PlainYAMLError "unacceptable character").

(** The record of the block [foo] of the file [a.md] that
    [single_find_matching] finds. *)
Definition parsed_from_a : Docs.ParsedDocumentation :=
  {| Docs.docfile :=
       {| Docs.root_path := "/project";
          Docs.resource_type := "documentation";
          Docs.path := "a.md";
          Docs.original_file_path := "docs/a.md";
          Docs.package_name := "pkg";
          Docs.file_contents := "{% docs foo %}hello{% enddocs %}" |};
     Docs.name := "foo";
     Docs.unique_id := "pkg.foo";
     Docs.block_contents := "hello" |}.

(** ** The delimiter pattern on small texts *)

(** Blanks after the hyphens belong to the match; the newline that ends
    the line does not. *)
Example delimiter_with_trailing_blanks :
  Re.delimiter_search true ("---  " +:+ Py.nl +:+ "x")
  = Some {| Re.before := ""; Re.matched := "---  ";
            Re.after := Py.nl +:+ "x" |}.
Proof. reflexivity. Qed.

(** The star may run over empty lines, up to the last newline before the
    next text. *)
Example delimiter_runs_over_empty_lines :
  Re.delimiter_search true ("---" +:+ Py.nl +:+ Py.nl +:+ "x")
  = Some {| Re.before := ""; Re.matched := "---" +:+ Py.nl;
            Re.after := Py.nl +:+ "x" |}.
Proof. reflexivity. Qed.

(** The hyphens must start a line and nothing but blanks may follow. *)
Example delimiter_must_fill_the_line :
  Re.delimiter_search true " ---" = None
  /\ Re.delimiter_search true "----" = None
  /\ Re.delimiter_search true "--- x" = None
  /\ Re.delimiter_search true ("a" +:+ Py.nl +:+ "---")
     = Some {| Re.before := "a" +:+ Py.nl; Re.matched := "---"; Re.after := "" |}.
Proof. repeat split; reflexivity. Qed.

(** At most two cuts are made. *)
Example split_stops_after_two_cuts :
  Re.delimiter_split
    ("---" +:+ Py.nl +:+ "a" +:+ Py.nl +:+ "---" +:+ Py.nl +:+ "b" +:+ Py.nl +:+ "---")
    2
  = [""; Py.nl +:+ "a" +:+ Py.nl; Py.nl +:+ "b" +:+ Py.nl +:+ "---"].
Proof. reflexivity. Qed.

(** ** Facts about the frontmatter extractor *)

Section FrontmatterFacts.

Import YamlHelper.

Variable yaml_value : Type.
Variable yaml_load : string -> YAMLError + option yaml_value.
Variable warn_error : bool.

(** A list never equals an integer, so [parts != 3] is [True]. *)
Lemma py_ne_list_int (parts : list string) (n : Z) :
  py_ne (PyStrList parts) (PyInt n) = PyBool true.
Proof. reflexivity. Qed.

(** The guard of line 78 raises whatever the segments are. *)
Lemma frontmatter_guard_raises (parts : list string) :
  frontmatter_guard parts = Raised TypeError.
Proof. unfold frontmatter_guard. rewrite py_ne_list_int. reflexivity. Qed.

Lemma parse_yaml_frontmatter_stops_at_guard content on_error log :
  parse_yaml_frontmatter yaml_value yaml_load warn_error content on_error log
  = (Raised TypeError, log).
Proof.
  unfold parse_yaml_frontmatter, bind, lift.
  rewrite frontmatter_guard_raises. reflexivity.
Qed.

(** C2: for every input string and either policy, the call raises a
    [TypeError] and returns no tuple; the error comes from the guard,
    before the decoder or the warning channel is used, so the channel
    has received nothing more when the call ends. *)
Theorem parse_yaml_frontmatter_always_type_error :
  forall content on_error log,
    frontmatter_guard (Re.delimiter_split content 2) = Raised TypeError
    /\ parse_yaml_frontmatter yaml_value yaml_load warn_error content on_error log
       = (Raised TypeError, log)
    /\ (forall r log',
          parse_yaml_frontmatter yaml_value yaml_load warn_error content on_error log
          <> (Returned r, log')).
Proof.
  intros content on_error log. split; [apply frontmatter_guard_raises|].
  split; [apply parse_yaml_frontmatter_stops_at_guard|].
  intros r log'. rewrite parse_yaml_frontmatter_stops_at_guard. discriminate.
Qed.

(** C1, at two documents without frontmatter: [doc_plain] has no
    delimiter line and [doc_text_first] has text before the first one.
    The claim asks for [(None, content)]; the call raises [TypeError]
    on both, under either policy. *)
Theorem parse_yaml_frontmatter_no_frontmatter_raises :
  forall on_error log,
    length (Re.delimiter_split doc_plain 2) = 1%nat
    /\ (exists p0 rest, Re.delimiter_split doc_text_first 2 = p0 :: rest
                        /\ Re.non_whitespace_search p0 = Some "t"%char)
    /\ parse_yaml_frontmatter yaml_value yaml_load warn_error doc_plain on_error log
       = (Raised TypeError, log)
    /\ parse_yaml_frontmatter yaml_value yaml_load warn_error doc_text_first
         on_error log
       = (Raised TypeError, log).
Proof.
  intros on_error log. split; [reflexivity|].
  split; [eexists _, _; split; reflexivity|].
  split; apply parse_yaml_frontmatter_stops_at_guard.
Qed.

(** C4, at [doc_malformed]: two delimiter lines around a segment the
    decoder rejects. The claim asks for [(None, content)] under the
    [ignore] policy; the call raises [TypeError] before it decodes. *)
Theorem parse_yaml_frontmatter_ignore_raises :
  forall log,
    Re.delimiter_split doc_malformed 2
    = [""; Py.nl +:+ "a: [" +:+ Py.nl; Py.nl +:+ "BODY"]
    /\ parse_yaml_frontmatter yaml_value yaml_load warn_error doc_malformed
         Ignore log
       = (Raised TypeError, log).
Proof.
  intros log. split; [reflexivity|].
  apply parse_yaml_frontmatter_stops_at_guard.
Qed.

(** What the code after the guard does with three segments. *)
Lemma frontmatter_of_three_parts content on_error p0 seg rest log :
  frontmatter_of_parts yaml_value yaml_load warn_error content on_error
    [p0; seg; rest] log
  = match yaml_load seg with
    | inr parsed => (Returned (parsed, rest), log)
    | inl e =>
        frontmatter_decode_failed yaml_value warn_error content on_error e log
    end.
Proof.
  unfold frontmatter_of_parts, safe_load.
  change (Py.slice [p0; seg; rest] 1 (Z.of_nat (length [p0; seg; rest])))
    with [seg; rest].
  cbv beta iota. destruct (yaml_load seg) eqn:Hload; rewrite ?Hload; reflexivity.
Qed.

(** C3, amended: the split of [doc_round_trip] gives an empty first
    segment, the middle segment with the newlines around [a: 1], and
    the remainder [BODY] after the newline that ends the closing
    delimiter line; with these segments the code after the guard pairs
    what the decoder makes of the middle segment with that remainder,
    newline included. *)
Theorem round_trip_body_keeps_newline :
  forall (decoded : option yaml_value) on_error log,
    yaml_load (Py.nl +:+ "a: 1" +:+ Py.nl) = inr decoded ->
    Re.delimiter_split doc_round_trip 2
    = [""; Py.nl +:+ "a: 1" +:+ Py.nl; Py.nl +:+ "BODY"]
    /\ frontmatter_of_parts yaml_value yaml_load warn_error doc_round_trip on_error
         (Re.delimiter_split doc_round_trip 2) log
       = (Returned (decoded, Py.nl +:+ "BODY"), log).
Proof.
  intros decoded on_error log Hload.
  assert (Hsplit : Re.delimiter_split doc_round_trip 2
                   = [""; Py.nl +:+ "a: 1" +:+ Py.nl; Py.nl +:+ "BODY"])
    by reflexivity.
  split; [exact Hsplit|].
  rewrite Hsplit, frontmatter_of_three_parts, Hload. reflexivity.
Qed.

(** C5, amended: when the code after the guard has three segments and
    the decoder rejects the middle one with an error that carries a
    mark, then under [warn_or_error] the channel receives exactly one
    more value, a validation error whose message is the banner followed
    by the contextualized message; that message reports the line of the
    mark plus one, a line of the middle segment, and windows the whole
    original content; the call returns [(None, content)] when the
    channel only warns, and the validation error propagates when it
    escalates. *)
Theorem decode_failure_warns_once :
  forall content p0 seg rest mark text log,
    yaml_load seg = inl (MarkedYAMLError (Some mark) text) ->
    let message :=
      "Error parsing YAML frontmatter!"
      +:+ YAML_ERROR_MESSAGE (line mark + 1)
            (prefix_with_line_numbers content (Z.max (line mark - 3) 0)
               (line mark + 4))
            text in
    frontmatter_of_parts yaml_value yaml_load warn_error content WarnOrError
      [p0; seg; rest] log
    = (if warn_error then Raised (DbtValidationError message)
       else Returned (None, content),
       (log ++ [DbtValidationError message])%list).
Proof.
  intros content p0 seg rest mark text log Hload message.
  rewrite frontmatter_of_three_parts, Hload.
  unfold frontmatter_decode_failed, bind, lift, warn_or_error, ret. cbn.
  fold message. destruct warn_error; reflexivity.
Qed.

(** C10: whenever the split of line 77 finds two delimiters, that is
    three segments, [maybe_has_yaml_frontmatter] gives a match object,
    which is truthy; it also gives one for [doc_one_delimiter], whose
    split has two segments only. *)
Theorem maybe_has_yaml_frontmatter_no_false_negative :
  (forall content,
      length (Re.delimiter_split content 2) = 3%nat ->
      truthy (maybe_has_yaml_frontmatter content) = true)
  /\ truthy (maybe_has_yaml_frontmatter doc_one_delimiter) = true
  /\ length (Re.delimiter_split doc_one_delimiter 2) = 2%nat.
Proof.
  split; [|split; reflexivity].
  intros content H3.
  unfold maybe_has_yaml_frontmatter, Re.delimiter_split in *. cbn in H3.
  destruct (Re.delimiter_search true content); [reflexivity|discriminate].
Qed.

End FrontmatterFacts.

(** ** Facts about the contextualized error message *)

Section ContextFacts.

Import YamlHelper.

Lemma range_from_nat (a b : Z) :
  0 <= a ->
  Py.range a b = map Z.of_nat (seq (Z.to_nat a) (Z.to_nat (b - a))).
Proof.
  intros Ha. unfold Py.range.
  rewrite <- (Nat.add_0_r (Z.to_nat a)) at 1.
  rewrite <- fmap_add_seq.
  change (fmap ?f ?l) with (map f l). rewrite map_map.
  apply map_ext. intros k. lia.
Qed.

Lemma combine_nil_r {A B} (l : list A) : combine l (@nil B) = [].
Proof. destruct l; reflexivity. Qed.

(** Zipping the numbers from [lo] on with the [k] elements that follow
    the first [lo] pairs each of these elements with its index. *)
Lemma zip_numbers_slice {A} (l : list A) (d : A) :
  forall (k lo m : nat),
    (lo + k <= length l)%nat -> (k <= m)%nat ->
    Py.zip (map Z.of_nat (seq lo m)) (firstn k (skipn lo l))
    = map (fun i => (Z.of_nat i, nth i l d)) (seq lo k).
Proof.
  unfold Py.zip. induction k as [|k IH]; intros lo m Hlen Hm.
  - cbn. apply combine_nil_r.
  - destruct m as [|m]; [lia|].
    destruct (lookup_lt_is_Some_2 l lo) as [x Hx]; [lia|].
    rewrite (drop_S l x lo Hx). cbn.
    rewrite (nth_lookup l lo d), Hx. cbn. f_equal.
    apply IH; lia.
Qed.

Lemma prefix_with_line_numbers_window (raw : string) (l : Z) :
  prefix_with_line_numbers raw (Z.max (l - 3) 0) (l + 4)
  = render_window (context_window (Py.split Py.newline raw) l).
Proof.
  unfold prefix_with_line_numbers, render_window, context_window.
  set (lines := Py.split Py.newline raw). f_equal.
  rewrite map_map.
  destruct (Z_le_gt_dec (l + 4) 0) as [Hneg|Hpos].
  - replace (Z.to_nat (l + 4)) with 0%nat by lia.
    unfold Py.range. replace (Z.to_nat (l + 4 - Z.max (l - 3) 0)) with 0%nat by lia.
    reflexivity.
  - rewrite range_from_nat by lia.
    unfold Py.slice, Py.slice_bound.
    destruct (Z.ltb_spec (Z.max (l - 3) 0) 0) as [?|_]; [lia|].
    destruct (Z.ltb_spec (l + 4) 0) as [?|_]; [lia|].
    set (lo := Z.to_nat (Z.max (l - 3) 0)).
    set (hi := Z.to_nat (l + 4)).
    set (n := length lines).
    destruct (le_lt_dec n lo) as [Hout|Hin].
    + replace (Nat.min hi n - Nat.min lo n)%nat with 0%nat by lia.
      replace (Nat.min hi n - lo)%nat with 0%nat by lia.
      unfold Py.zip. rewrite firstn_O, combine_nil_r. reflexivity.
    + replace (Nat.min lo n) with lo by lia.
      rewrite (zip_numbers_slice lines "") by (subst lo hi n; lia).
      rewrite map_map. apply map_ext. intros i. reflexivity.
Qed.

(** C9: for every document and every error with a mark, the message
    reports the line of the mark plus one and renders the lines whose
    0-based index lies in [[line - 3, line + 4)], clipped to the
    document (from 0 at least), each after its 1-based number
    left-justified to width 3 and a bar; for a mark on line 10 of a
    document of 20 lines these are the lines 7 to 13. *)
Theorem contextualized_yaml_error_window :
  forall raw_contents mark text,
    contextualized_yaml_error raw_contents (MarkedYAMLError (Some mark) text)
    = Returned
        ("Syntax error near line " +:+ Py.str_of_int (line mark + 1) +:+ Py.nl
         +:+ dashes +:+ Py.nl
         +:+ render_window
               (context_window (Py.split Py.newline raw_contents) (line mark))
         +:+ Py.nl +:+ Py.nl
         +:+ "Raw Error:" +:+ Py.nl
         +:+ dashes +:+ Py.nl
         +:+ text)
    /\ (length (Py.split Py.newline raw_contents) = 20%nat ->
        line mark = 10 ->
        map fst (context_window (Py.split Py.newline raw_contents) (line mark))
        = [7; 8; 9; 10; 11; 12; 13]%nat).
Proof.
  intros raw_contents mark text. split.
  - unfold contextualized_yaml_error, YAML_ERROR_MESSAGE.
    rewrite prefix_with_line_numbers_window. reflexivity.
  - intros Hlen Hline. unfold context_window.
    rewrite Hlen, Hline. reflexivity.
Qed.

End ContextFacts.

(** ** Facts about [str.replace] *)

Section ReplaceFacts.

Lemma startswith_self_app (p rest : string) :
  Py.startswith p (p +:+ rest) = true.
Proof.
  induction p as [|c p IH]; [reflexivity|].
  change (String c p +:+ rest) with (String c (p +:+ rest)).
  cbn [Py.startswith]. rewrite Ascii.eqb_refl. exact IH.
Qed.

(** Once an occurrence is found, its characters are dropped. *)
Lemma replace_from_skips (old new rest : string) :
  forall q,
    Py.replace_from old new (String.length q) (q +:+ rest)
    = Py.replace_from old new 0 rest.
Proof.
  induction q as [|c q IH].
  - reflexivity.
  - change (String c q +:+ rest) with (String c (q +:+ rest)).
    cbn [Py.replace_from String.length]. exact IH.
Qed.

(** A text without occurrence of [old] is left as it is. *)
Lemma replace_from_absent (old new : string) :
  forall s,
    Py.contains old s = false ->
    Py.replace_from old new 0 s = s.
Proof.
  induction s as [|c s IH]; intros Habs; [reflexivity|].
  cbn in Habs. apply orb_false_iff in Habs as [Hhere Hlater].
  cbn [Py.replace_from]. rewrite Hhere, (IH Hlater). reflexivity.
Qed.

(** Removing every occurrence of a prefix that occurs only in front
    strips it. *)
Lemma replace_strips_prefix (p bare : string) :
  Py.contains p bare = false ->
  Py.replace p "" (p +:+ bare) = bare.
Proof.
  intros Habs. destruct p as [|c p].
  - destruct bare; discriminate.
  - unfold Py.replace.
    change (String c p +:+ bare) with (String c (p +:+ bare)).
    cbn [Py.replace_from].
    change (String c (p +:+ bare)) with (String c p +:+ bare).
    rewrite startswith_self_app.
    replace (String.length (String c p) - 1)%nat with (String.length p)
      by (cbn; lia).
    rewrite replace_from_skips, replace_from_absent by exact Habs.
    reflexivity.
Qed.

End ReplaceFacts.

(** ** Facts about the template scanner and the registry *)

Section ParserFacts.

Import Docs.

Variable DOCS_PREFIX : string.
Variable project : Type.
Variable get_fqn : string -> project -> list string.
Variable jinja_parse : string -> string + Node.
Variable find_matching : string -> list string -> string -> list FileMatch.
Variable load_file_contents : string -> string.

Local Abbreviation parse_macro := (Docs.parse_macro DOCS_PREFIX project get_fqn).
Local Abbreviation parse_macros := (Docs.parse_macros DOCS_PREFIX project get_fqn).
Local Abbreviation parse_ast := (Docs.parse_ast DOCS_PREFIX project get_fqn).
Local Abbreviation parse := (Docs.parse DOCS_PREFIX project get_fqn jinja_parse).
Local Abbreviation collect_files :=
  (Docs.collect_files DOCS_PREFIX project get_fqn jinja_parse).
Local Abbreviation batch_records :=
  (Docs.batch_records DOCS_PREFIX project get_fqn jinja_parse).
Local Abbreviation load_file := (Docs.load_file find_matching load_file_contents).
Local Abbreviation load_and_parse :=
  (Docs.load_and_parse DOCS_PREFIX project get_fqn jinja_parse
     find_matching load_file_contents).

Lemma parse_macro_continue all_projects docfile macro :
  parse_macro all_projects docfile macro = Continue
  <-> Py.startswith DOCS_PREFIX (fst macro) = false.
Proof.
  unfold Docs.parse_macro.
  destruct (Py.startswith DOCS_PREFIX (fst macro)); cbn.
  - split; [|discriminate].
    destruct (all_projects !! package_name docfile); [|discriminate].
    destruct (macro_contents (snd macro)); discriminate.
  - split; reflexivity.
Qed.

Lemma parse_macro_yield all_projects docfile macro parsed :
  parse_macro all_projects docfile macro = Yield parsed ->
  Py.startswith DOCS_PREFIX (fst macro) = true
  /\ Docs.docfile parsed = docfile
  /\ name parsed = Py.replace DOCS_PREFIX "" (fst macro)
  /\ unique_id parsed = package_name docfile +:+ "." +:+ name parsed
  /\ macro_contents (snd macro) = Returned (block_contents parsed).
Proof.
  unfold Docs.parse_macro.
  destruct (Py.startswith DOCS_PREFIX (fst macro)); cbn; [|discriminate].
  destruct (all_projects !! package_name docfile); [|discriminate].
  destruct (macro_contents (snd macro)) as [contents|]; [|discriminate].
  intros [= <-]. cbn. repeat split; reflexivity.
Qed.

(** When the scan of the macros runs to its end, the names it yields
    are those of the macros that pass the filter, in order. *)
Lemma parse_macros_names all_projects docfile macros :
  gen_end (parse_macros all_projects docfile macros) = None ->
  map name (gen_items (parse_macros all_projects docfile macros))
  = map (Py.replace DOCS_PREFIX "")
        (List.filter (Py.startswith DOCS_PREFIX) (map fst macros)).
Proof.
  induction macros as [|macro rest IH]; intros Hend; [reflexivity|].
  cbn in *.
  destruct (parse_macro all_projects docfile macro) as [|parsed|e] eqn:Hturn.
  - apply parse_macro_continue in Hturn. rewrite Hturn. auto.
  - apply parse_macro_yield in Hturn as (Hpre & _ & Hname & _).
    rewrite Hpre. cbn. rewrite Hname, (IH Hend). reflexivity.
  - discriminate.
Qed.

(** C7, amended: a macro found in the template is passed over, with
    neither a candidate nor an error, exactly when its declared name
    does not begin with the prefix; for every candidate that is
    emitted the declared name begins with the prefix, the bare name is
    the declared name with every occurrence of the prefix removed,
    which is the declared name without its leading prefix when the
    prefix does not occur again, and the unique identifier is the
    package name, a dot and the bare name; when the scan runs to its
    end the candidates are those of the macros whose name begins with
    the prefix, in document order. *)
Theorem scanner_filters_and_names :
  forall all_projects docfile ast,
    (forall macro,
        In macro (find_all_macros ast) ->
        (parse_macro all_projects docfile macro = Continue
         <-> Py.startswith DOCS_PREFIX (fst macro) = false)
        /\ (forall parsed,
               parse_macro all_projects docfile macro = Yield parsed ->
               Py.startswith DOCS_PREFIX (fst macro) = true
               /\ name parsed = Py.replace DOCS_PREFIX "" (fst macro)
               /\ unique_id parsed
                  = package_name docfile +:+ "." +:+ name parsed
               /\ (forall bare,
                      fst macro = DOCS_PREFIX +:+ bare ->
                      Py.contains DOCS_PREFIX bare = false ->
                      name parsed = bare)))
    /\ (gen_end (parse_ast all_projects docfile ast) = None ->
        map name (gen_items (parse_ast all_projects docfile ast))
        = map (Py.replace DOCS_PREFIX "")
              (List.filter (Py.startswith DOCS_PREFIX)
                           (map fst (find_all_macros ast)))).
Proof.
  intros all_projects docfile ast. split.
  - intros macro _. split; [apply parse_macro_continue|].
    intros parsed Hturn.
    apply parse_macro_yield in Hturn as (Hpre & _ & Hname & Hid & _).
    repeat split; try assumption.
    intros bare Hkey Habs. rewrite Hname, Hkey.
    apply replace_strips_prefix, Habs.
  - apply parse_macros_names.
Qed.

(** C8, amended: the contents are the empty text when the body is
    empty or starts with an [Output] node without children, and the
    data of the first child when the body starts with an [Output] node
    whose first child is literal text; the scan raises
    [AttributeError] when the body starts with a node of another kind
    or when that first child is not literal text; the contents of an
    emitted candidate are the ones so extracted. For the template of
    one block [foo] that holds the text [hello], in a known package,
    the scan yields exactly one candidate, of bare name [foo] and
    contents [hello]. *)
Theorem macro_contents_by_shape :
  forall all_projects docfile,
    macro_contents [] = Returned ""
    /\ (forall rest, macro_contents (Output [] :: rest) = Returned "")
    /\ (forall d ns rest,
           macro_contents (Output (TemplateData d :: ns) :: rest) = Returned d)
    /\ (forall first rest,
           attr_nodes first = Raised AttributeError ->
           macro_contents (first :: rest) = Raised AttributeError)
    /\ (forall n0 ns rest,
           attr_data n0 = Raised AttributeError ->
           macro_contents (Output (n0 :: ns) :: rest) = Raised AttributeError)
    /\ (forall macro parsed,
           parse_macro all_projects docfile macro = Yield parsed ->
           macro_contents (snd macro) = Returned (block_contents parsed))
    /\ (forall config,
           all_projects !! package_name docfile = Some config ->
           Py.contains DOCS_PREFIX "foo" = false ->
           parse_ast all_projects docfile
             (Template [Macro (DOCS_PREFIX +:+ "foo")
                              [Output [TemplateData "hello"]]])
           = Yielded {| docfile := docfile;
                        name := "foo";
                        unique_id := package_name docfile +:+ "." +:+ "foo";
                        block_contents := "hello" |} Done).
Proof.
  intros all_projects docfile.
  split; [reflexivity|]. split; [reflexivity|]. split; [reflexivity|].
  split; [intros first rest H; cbn; rewrite H; reflexivity|].
  split; [intros n0 ns rest H; cbn; exact H|].
  split.
  - intros macro parsed Hturn.
    apply parse_macro_yield in Hturn as (_ & _ & _ & _ & Hcontents).
    exact Hcontents.
  - intros config Hproj Habs.
    unfold Docs.parse_ast. cbn. unfold Docs.parse_macro. cbn.
    rewrite startswith_self_app, Hproj, (replace_strips_prefix _ _ Habs).
    reflexivity.
Qed.

End ParserFacts.

(** ** Facts about the registry builder *)

Section RegistryFacts.

Import Docs.

Variable DOCS_PREFIX : string.
Variable project : Type.
Variable get_fqn : string -> project -> list string.
Variable jinja_parse : string -> string + Node.
Variable find_matching : string -> list string -> string -> list FileMatch.
Variable load_file_contents : string -> string.

Local Abbreviation parse := (Docs.parse DOCS_PREFIX project get_fqn jinja_parse).
Local Abbreviation collect_files :=
  (Docs.collect_files DOCS_PREFIX project get_fqn jinja_parse).
Local Abbreviation batch_records :=
  (Docs.batch_records DOCS_PREFIX project get_fqn jinja_parse).
Local Abbreviation load_file := (Docs.load_file find_matching load_file_contents).
Local Abbreviation load_and_parse :=
  (Docs.load_and_parse DOCS_PREFIX project get_fqn jinja_parse
     find_matching load_file_contents).

(** Running the inner loop on one generator after another is running it
    on the first and then, unless it raised, on the second. *)
Lemma collect_gen_then (g1 g2 : gen ParsedDocumentation) :
  forall to_return,
    collect (gen_then g1 g2) to_return
    = match collect g1 to_return with
      | (Returned _, to_return') => collect g2 to_return'
      | (Raised e, to_return') => (Raised e, to_return')
      end.
Proof.
  induction g1 as [|parsed rest IH|e]; intros to_return; cbn; try reflexivity.
  destruct (to_return !! unique_id parsed); [reflexivity|apply IH].
Qed.

(** The two loops over the files amount to the inner loop over the
    records of the whole batch. *)
Lemma collect_files_batch all_projects root_project docfiles :
  forall to_return,
    collect_files all_projects root_project docfiles to_return
    = collect (batch_records all_projects root_project docfiles) to_return.
Proof.
  induction docfiles as [|docfile rest IH]; intros to_return; [reflexivity|].
  cbn. rewrite collect_gen_then.
  destruct (collect (parse all_projects root_project docfile) to_return)
    as [[[]|e] to_return']; [apply IH|reflexivity].
Qed.

Lemma registry_of_empty : registry_of [] ∅.
Proof.
  intros k r. rewrite lookup_empty. split; [discriminate|intros [[] _]].
Qed.

Lemma registry_of_absent seen registry parsed :
  registry_of seen registry ->
  registry !! unique_id parsed = None ->
  ~ In (unique_id parsed) (map unique_id seen).
Proof.
  intros Hreg Hnone Hin. apply in_map_iff in Hin as (r & Hid & Hr).
  assert (registry !! unique_id parsed = Some r) as Hsome
    by (apply Hreg; split; assumption).
  congruence.
Qed.

Lemma registry_of_insert seen registry parsed :
  registry_of seen registry ->
  registry !! unique_id parsed = None ->
  registry_of (seen ++ [parsed])%list (<[unique_id parsed := parsed]> registry).
Proof.
  intros Hreg Hnone k r.
  destruct (decide (unique_id parsed = k)) as [<-|Hne].
  - rewrite lookup_insert_eq. split.
    + intros [= <-]. split; [apply in_or_app; right; left|]; reflexivity.
    + intros [Hin Hid]. apply in_app_or in Hin as [Hin|[->|[]]]; [|reflexivity].
      exfalso. apply (registry_of_absent _ _ _ Hreg Hnone).
      apply in_map_iff. exists r. split; assumption.
  - rewrite lookup_insert_ne by exact Hne. rewrite (Hreg k r). split.
    + intros [Hin Hid]. split; [apply in_or_app; left|]; assumption.
    + intros [Hin Hid]. split; [|assumption].
      apply in_app_or in Hin as [Hin|[->|[]]]; [assumption|contradiction].
Qed.

(** The inner loop, started with a registry that holds the records seen
    so far, stops at the first record whose identifier is taken. *)
Lemma collect_stops_at_first_duplicate (records : gen ParsedDocumentation) :
  forall seen registry,
    registry_of seen registry ->
    List.NoDup (map unique_id seen) ->
    ~ List.NoDup (map unique_id (seen ++ gen_items records)%list) ->
    exists seen' stored new later registry',
      (seen ++ gen_items records)%list = (seen' ++ new :: later)%list
      /\ List.NoDup (map unique_id seen')
      /\ In stored seen'
      /\ unique_id stored = unique_id new
      /\ collect records registry = (Raised (DuplicateResourceError stored new), registry')
      /\ registry_of seen' registry'
      /\ registry' !! unique_id new = Some stored.
Proof.
  induction records as [|parsed rest IH|e]; intros seen registry Hreg Hnodup Hdup.
  - cbn in Hdup. rewrite app_nil_r in Hdup. contradiction.
  - cbn [collect gen_items].
    destruct (registry !! unique_id parsed) as [stored|] eqn:Hlook.
    + exists seen, stored, parsed, (gen_items rest), registry.
      apply Hreg in Hlook as Hstored. destruct Hstored as [Hin Hid].
      cbn. split_and!; try assumption; reflexivity.
    + destruct (IH (seen ++ [parsed])%list (<[unique_id parsed := parsed]> registry))
        as (seen' & stored & new & later & registry' & Heq & H)
      ; [apply registry_of_insert; assumption| |
         rewrite <- app_assoc; exact Hdup|].
      * rewrite map_app. cbn.
        apply List.NoDup_app; [assumption| |].
        -- apply List.NoDup_cons; [intros []|apply List.NoDup_nil].
        -- intros k Hk1 [<-|[]].
           exact (registry_of_absent _ _ _ Hreg Hlook Hk1).
      * exists seen', stored, new, later, registry'.
        split; [|exact H]. rewrite <- Heq, <- app_assoc. reflexivity.
  - cbn in Hdup. rewrite app_nil_r in Hdup. contradiction.
Qed.

(** C6: when the records of a batch hold two with the same unique
    identifier, [load_and_parse] raises the duplicate-resource error
    made of the stored record and of the first record whose identifier
    is taken; at that point the registry holds exactly the records that
    came before, the stored one under the contested identifier, and
    neither the colliding record nor anything after it. *)
Theorem load_and_parse_duplicate :
  forall package_name root_project all_projects root_dir relative_dirs,
    let records :=
      gen_items
        (batch_records all_projects root_project
           (load_file package_name root_dir relative_dirs)) in
    ~ List.NoDup (map unique_id records) ->
    exists seen stored new later to_return,
      records = (seen ++ new :: later)%list
      /\ List.NoDup (map unique_id seen)
      /\ In stored seen
      /\ unique_id stored = unique_id new
      /\ load_and_parse package_name root_project all_projects root_dir relative_dirs
         = (Raised (DuplicateResourceError stored new), to_return)
      /\ to_return !! unique_id new = Some stored
      /\ registry_of seen to_return.
Proof.
  intros package_name root_project all_projects root_dir relative_dirs records Hdup.
  destruct (collect_stops_at_first_duplicate
              (batch_records all_projects root_project
                 (load_file package_name root_dir relative_dirs))
              [] ∅ registry_of_empty (List.NoDup_nil _) Hdup)
    as (seen & stored & new & later & to_return
        & Heq & Hnodup & Hin & Hid & Hrun & Hreg & Hlook).
  exists seen, stored, new, later, to_return.
  split_and!; try assumption.
  unfold Docs.load_and_parse. rewrite collect_files_batch, Hrun. reflexivity.
Qed.

End RegistryFacts.

(** ** The statements above at concrete inputs *)

(** C3, refuted as stated: on [doc_round_trip] the call does not return
    the decoded mapping with the body [BODY], under either policy; and
    the third segment of the split, the remainder the code would pair
    with the mapping, is not [BODY] either. *)
Lemma round_trip_not_body :
  YamlHelper.parse_yaml_frontmatter _ sample_yaml_load false doc_round_trip
    YamlHelper.Ignore []
  <> (Returned (Some [("a", 1)], "BODY"), [])
  /\ YamlHelper.parse_yaml_frontmatter _ sample_yaml_load false doc_round_trip
       YamlHelper.WarnOrError []
     <> (Returned (Some [("a", 1)], "BODY"), [])
  /\ nth 2 (Re.delimiter_split doc_round_trip 2) "" <> "BODY".
Proof.
  rewrite !parse_yaml_frontmatter_stops_at_guard.
  split; [discriminate|]. split; [discriminate|].
  vm_compute. discriminate.
Qed.

Lemma round_trip_body_keeps_newline_witness :
  Re.delimiter_split doc_round_trip 2
  = [""; Py.nl +:+ "a: 1" +:+ Py.nl; Py.nl +:+ "BODY"]
  /\ YamlHelper.frontmatter_of_parts _ sample_yaml_load false doc_round_trip
       YamlHelper.Ignore (Re.delimiter_split doc_round_trip 2) []
     = (Returned (Some [("a", 1)], Py.nl +:+ "BODY"), []).
Proof.
  apply (round_trip_body_keeps_newline _ sample_yaml_load false
           (Some [("a", 1)]) YamlHelper.Ignore []).
  reflexivity.
Defined.

(** C5, refuted as stated: on [doc_malformed] under [warn_or_error] the
    call neither hands a message to the channel nor returns; and when
    the channel escalates, the code after the guard does not return
    [(None, content)] either. *)
Lemma malformed_warn_or_error_not_returned :
  ~ (exists message,
        YamlHelper.parse_yaml_frontmatter _ sample_yaml_load false doc_malformed
          YamlHelper.WarnOrError []
        = (Returned (None, doc_malformed),
           [YamlHelper.DbtValidationError message]))
  /\ fst (YamlHelper.frontmatter_of_parts _ sample_yaml_load true doc_malformed
            YamlHelper.WarnOrError (Re.delimiter_split doc_malformed 2) [])
     <> Returned (None, doc_malformed).
Proof.
  split.
  - intros [message H].
    rewrite parse_yaml_frontmatter_stops_at_guard in H. discriminate H.
  - vm_compute. discriminate.
Qed.

Lemma decode_failure_warns_once_witness :
  exists message,
    YamlHelper.frontmatter_of_parts _ sample_yaml_load false doc_malformed
      YamlHelper.WarnOrError [""; Py.nl +:+ "a: [" +:+ Py.nl; Py.nl +:+ "BODY"] []
    = (Returned (None, doc_malformed), [YamlHelper.DbtValidationError message])
    /\ Py.startswith "Error parsing YAML frontmatter!Syntax error near line 3"
         message = true.
Proof.
  eexists. split.
  - apply (decode_failure_warns_once _ sample_yaml_load false doc_malformed
             "" (Py.nl +:+ "a: [" +:+ Py.nl) (Py.nl +:+ "BODY")
             {| YamlHelper.line := 2; YamlHelper.column := 0 |}
             "while parsing a flow node" []).
    reflexivity.
  - reflexivity.
Defined.

(** The line in the message is a line of the middle segment: when blank
    lines come before the first delimiter, the message names line 3,
    which in the document is the opening delimiter, while the rejected
    text [a: [] stands on line 4 of the document. *)
Example decode_failure_line_is_of_segment :
  exists message,
    snd (YamlHelper.frontmatter_of_parts _ sample_yaml_load false
           doc_blank_lines_first YamlHelper.WarnOrError
           (Re.delimiter_split doc_blank_lines_first 2) [])
    = [YamlHelper.DbtValidationError message]
    /\ Py.startswith "Error parsing YAML frontmatter!Syntax error near line 3"
         message = true
    /\ nth 2 (Py.split Py.newline doc_blank_lines_first) "" = "---"
    /\ nth 3 (Py.split Py.newline doc_blank_lines_first) "" = "a: [".
Proof. eexists. split; [reflexivity|]. split; [|split]; reflexivity. Qed.

Lemma maybe_has_yaml_frontmatter_witness :
  YamlHelper.truthy (YamlHelper.maybe_has_yaml_frontmatter doc_round_trip) = true.
Proof.
  apply (proj1 maybe_has_yaml_frontmatter_no_false_negative doc_round_trip).
  reflexivity.
Defined.

Lemma contextualized_yaml_error_window_witness :
  map fst
    (context_window (Py.split Py.newline doc_twenty_lines)
       (YamlHelper.line {| YamlHelper.line := 10; YamlHelper.column := 0 |}))
  = [7; 8; 9; 10; 11; 12; 13]%nat.
Proof.
  apply (proj2 (contextualized_yaml_error_window doc_twenty_lines
                  {| YamlHelper.line := 10; YamlHelper.column := 0 |} "boom"));
    reflexivity.
Defined.

(** C7, refuted as stated: the block named [a_dbt_docs__b] is emitted
    with the bare name [a_b], which is not its declared name without the
    leading prefix; and the block [cond], whose declared name begins
    with the prefix, is found by the scan, yet no candidate is emitted
    for it. *)
Lemma bare_name_not_stripped_name :
  (exists parsed,
      Docs.parse_macro dbt_docs_prefix unit sample_get_fqn sample_projects
        sample_docfile macro_repeated_prefix = Docs.Yield parsed
      /\ fst macro_repeated_prefix = dbt_docs_prefix +:+ "a_dbt_docs__b"
      /\ Docs.name parsed <> "a_dbt_docs__b")
  /\ In macro_conditional (Docs.find_all_macros ast_conditional)
  /\ Py.startswith dbt_docs_prefix (fst macro_conditional) = true
  /\ Docs.gen_items
       (Docs.parse_ast dbt_docs_prefix unit sample_get_fqn sample_projects
          sample_docfile ast_conditional) = [].
Proof.
  split.
  - eexists. split; [reflexivity|]. split; [reflexivity|].
    vm_compute. discriminate.
  - split; [left; reflexivity|]. split; reflexivity.
Qed.

Lemma scanner_filters_and_names_witness :
  Docs.parse_macro dbt_docs_prefix unit sample_get_fqn sample_projects
    sample_docfile macro_hello = Docs.Yield parsed_hello
  /\ Docs.name parsed_hello = "foo"
  /\ Docs.unique_id parsed_hello = "pkg" +:+ "." +:+ Docs.name parsed_hello.
Proof.
  destruct (scanner_filters_and_names dbt_docs_prefix unit sample_get_fqn
              sample_projects sample_docfile ast_hello) as [Hmacro _].
  destruct (Hmacro macro_hello (or_introl eq_refl)) as [_ Hyield].
  destruct (Hyield parsed_hello eq_refl) as (_ & _ & Hid & Hbare).
  split; [reflexivity|].
  split; [apply (Hbare "foo"); reflexivity|exact Hid].
Defined.

(** C8, refuted as stated: a body that starts with a conditional is not
    empty, and a body that starts with a printed expression has a first
    element with child nodes; the extraction raises on both instead of
    giving the empty text or the data of a literal. *)
Lemma contents_raise_on_other_shapes :
  snd macro_conditional <> []
  /\ Docs.macro_contents (snd macro_conditional) = Raised Docs.AttributeError
  /\ Docs.macro_contents (snd macro_expression) = Raised Docs.AttributeError
  /\ Docs.parse_ast dbt_docs_prefix unit sample_get_fqn sample_projects
       sample_docfile ast_conditional
     = Docs.Failed Docs.AttributeError.
Proof.
  split; [discriminate|]. split; [reflexivity|]. split; reflexivity.
Qed.

Lemma macro_contents_by_shape_witness :
  Docs.parse_ast dbt_docs_prefix unit sample_get_fqn sample_projects
    sample_docfile ast_hello
  = Docs.Yielded {| Docs.docfile := sample_docfile;
                    Docs.name := "foo";
                    Docs.unique_id := "pkg" +:+ "." +:+ "foo";
                    Docs.block_contents := "hello" |} Docs.Done.
Proof.
  destruct (macro_contents_by_shape dbt_docs_prefix unit sample_get_fqn
              sample_projects sample_docfile)
    as (_ & _ & _ & _ & _ & _ & Hhello).
  apply (Hhello tt); reflexivity.
Defined.

Lemma load_and_parse_duplicate_witness :
  exists stored new to_return,
    Docs.load_and_parse dbt_docs_prefix unit sample_get_fqn sample_jinja_parse
      sample_find_matching sample_load_file_contents
      "pkg" tt sample_projects "/project" ["docs"]
    = (Raised (Docs.DuplicateResourceError stored new), to_return)
    /\ to_return !! Docs.unique_id new = Some stored
    /\ Docs.unique_id stored = Docs.unique_id new.
Proof.
  destruct (load_and_parse_duplicate dbt_docs_prefix unit sample_get_fqn
              sample_jinja_parse sample_find_matching sample_load_file_contents
              "pkg" tt sample_projects "/project" ["docs"])
    as (seen & stored & new & later & to_return
        & _ & _ & _ & Hid & Hrun & Hlook & _).
  - vm_compute. intros Hnodup.
    inversion Hnodup as [|x l Hnotin _]. apply Hnotin. left. reflexivity.
  - exists stored, new, to_return. split; [exact Hrun|]. split; assumption.
Defined.

(** ** Further facts about strings and the delimiter pattern *)

Section PatternFacts.

Lemma string_app_assoc (a b c : string) : (a +:+ b) +:+ c = a +:+ (b +:+ c).
Proof.
  induction a as [|x a IH]; [reflexivity|].
  change (String x ((a +:+ b) +:+ c) = String x (a +:+ (b +:+ c))).
  rewrite IH. reflexivity.
Qed.

Lemma string_app_nil_r (a : string) : a +:+ "" = a.
Proof.
  induction a as [|x a IH]; [reflexivity|].
  change (String x (a +:+ "") = String x a). rewrite IH. reflexivity.
Qed.

Lemma string_app_cons (x : ascii) (a b : string) :
  String x a +:+ b = String x (a +:+ b).
Proof. reflexivity. Qed.

Lemma endswith_char_cons (c x : ascii) (s : string) :
  s <> "" -> Py.endswith_char c (String x s) = Py.endswith_char c s.
Proof. destruct s; [contradiction|reflexivity]. Qed.

Lemma endswith_char_app (c : ascii) (a b : string) :
  b <> "" -> Py.endswith_char c (a +:+ b) = Py.endswith_char c b.
Proof.
  intros Hb. induction a as [|x a IH]; [reflexivity|].
  rewrite string_app_cons, endswith_char_cons; [exact IH|].
  destruct a; [exact Hb|discriminate].
Qed.

Lemma isspace_newline : Py.isspace Py.newline = true.
Proof. reflexivity. Qed.

(** What [\s*$] takes is whitespace, and it stops at the end of a line. *)
Lemma ws_then_eol_sound :
  forall s w rest,
    Re.ws_then_eol s = Some (w, rest) ->
    s = w +:+ rest /\ all_space w = true /\ at_line_end rest.
Proof.
  induction s as [|c s IH]; intros w rest H.
  - cbn in H. injection H as <- <-. repeat split. left. reflexivity.
  - cbn [Re.ws_then_eol] in H.
    destruct (Py.isspace c) eqn:Hc; [|discriminate].
    destruct (Re.ws_then_eol s) as [[w' rest']|] eqn:Hrec.
    + injection H as <- <-.
      destruct (IH w' rest' eq_refl) as (Hs & Hw & Hrest).
      split; [rewrite string_app_cons, <- Hs; reflexivity|].
      split; [cbn; rewrite Hc; exact Hw|exact Hrest].
    + destruct (Ascii.eqb_spec c Py.newline) as [->|]; [|discriminate].
      injection H as <- <-. split; [reflexivity|]. split; [reflexivity|].
      right. reflexivity.
Qed.

(** [\s*$] succeeds on whitespace that is followed by the end of a line. *)
Lemma ws_then_eol_complete :
  forall w after,
    all_space w = true -> at_line_end after ->
    Re.ws_then_eol (w +:+ after) <> None.
Proof.
  induction w as [|c w IH]; intros after Hw Hafter.
  - destruct Hafter as [->|Hnl]; [discriminate|].
    destruct after as [|x after]; [discriminate|].
    change (Py.startswith Py.nl (String x after))
      with (Ascii.eqb Py.newline x && true) in Hnl.
    rewrite andb_true_r in Hnl. apply Ascii.eqb_eq in Hnl. subst x.
    change ("" +:+ String Py.newline after) with (String Py.newline after).
    cbn [Re.ws_then_eol]. rewrite isspace_newline.
    destruct (Re.ws_then_eol after) as [[? ?]|]; discriminate.
  - cbn in Hw. apply andb_true_iff in Hw as [Hc Hw].
    rewrite string_app_cons. cbn [Re.ws_then_eol]. rewrite Hc.
    specialize (IH after Hw Hafter).
    destruct (Re.ws_then_eol (w +:+ after)) as [[? ?]|]; [discriminate|contradiction].
Qed.

(** A match at the head is a delimiter text that runs to the end of a
    line. *)
Lemma delimiter_at_sound :
  forall s m rest,
    Re.delimiter_at s = Some (m, rest) ->
    s = m +:+ rest /\ delimiter_text m /\ at_line_end rest.
Proof.
  intros s m rest H.
  destruct s as [|c1 s]; [discriminate|].
  destruct c1 as [[] [] [] [] [] [] [] []]; try discriminate.
  destruct s as [|c2 s]; [discriminate|].
  destruct c2 as [[] [] [] [] [] [] [] []]; try discriminate.
  destruct s as [|c3 s]; [discriminate|].
  destruct c3 as [[] [] [] [] [] [] [] []]; try discriminate.
  cbn [Re.delimiter_at] in H.
  destruct (Re.ws_then_eol s) as [[w rest']|] eqn:Hws; [|discriminate].
  injection H as <- <-.
  destruct (ws_then_eol_sound _ _ _ Hws) as (Hs & Hw & Hrest).
  split; [rewrite string_app_assoc, <- Hs; reflexivity|].
  split; [exists w; split; [reflexivity|exact Hw]|exact Hrest].
Qed.

Lemma delimiter_at_complete :
  forall d after,
    delimiter_text d -> at_line_end after ->
    Re.delimiter_at (d +:+ after) <> None.
Proof.
  intros d after (w & -> & Hw) Hafter.
  rewrite string_app_assoc.
  change ("---" +:+ (w +:+ after))
    with (String "-" (String "-" (String "-" (w +:+ after)))).
  cbn [Re.delimiter_at].
  pose proof (ws_then_eol_complete w after Hw Hafter) as Hsome.
  destruct (Re.ws_then_eol (w +:+ after)) as [[? ?]|]; [discriminate|contradiction].
Qed.

(** What a search finds: the text splits into what precedes the match,
    the match and what follows; the match starts a line, is a delimiter
    text and ends a line. *)
Lemma delimiter_search_sound :
  forall s bol mt,
    Re.delimiter_search bol s = Some mt ->
    s = Re.before mt +:+ Re.matched mt +:+ Re.after mt
    /\ (Re.before mt = "" /\ bol = true
        \/ Py.endswith_char Py.newline (Re.before mt) = true)
    /\ delimiter_text (Re.matched mt)
    /\ at_line_end (Re.after mt).
Proof.
  induction s as [|c s IH]; intros bol mt H; [discriminate|].
  cbn [Re.delimiter_search] in H.
  destruct (if bol then Re.delimiter_at (String c s) else None)
    as [[m rest]|] eqn:Hhere.
  - injection H as <-. cbn.
    destruct bol; [|discriminate].
    destruct (delimiter_at_sound _ _ _ Hhere) as (Hs & Hm & Hrest).
    split; [exact Hs|]. split; [left; split; reflexivity|]. split; assumption.
  - destruct (Re.delimiter_search (Ascii.eqb c Py.newline) s) as [mt'|] eqn:Hrec;
      [|discriminate].
    injection H as <-. cbn [Re.before Re.matched Re.after].
    destruct (IH _ _ Hrec) as (Hs & Hstart & Hm & Hrest).
    split; [rewrite string_app_cons, <- Hs; reflexivity|].
    split; [|split; assumption].
    right. destruct Hstart as [[Hnil Hbol]|Hend].
    + rewrite Hnil. exact Hbol.
    + rewrite endswith_char_cons; [exact Hend|].
      intros Hnil. rewrite Hnil in Hend. discriminate.
Qed.

(** A search does not miss a delimiter line. *)
Lemma delimiter_search_complete :
  forall before bol rest,
    (before = "" -> bol = true) ->
    (before <> "" -> Py.endswith_char Py.newline before = true) ->
    Re.delimiter_at rest <> None ->
    Re.delimiter_search bol (before +:+ rest) <> None.
Proof.
  induction before as [|c before IH]; intros bol rest Hbol Hend Hat.
  - rewrite (Hbol eq_refl).
    change ("" +:+ rest) with rest.
    destruct rest as [|x rest]; [contradiction Hat; reflexivity|].
    cbn [Re.delimiter_search].
    destruct (Re.delimiter_at (String x rest)) as [[? ?]|];
      [discriminate|contradiction].
  - rewrite string_app_cons. cbn [Re.delimiter_search].
    destruct (if bol then Re.delimiter_at (String c (before +:+ rest)) else None)
      as [[? ?]|]; [discriminate|].
    assert (Re.delimiter_search (Ascii.eqb c Py.newline) (before +:+ rest) <> None)
      as Hrec.
    { apply IH; [| |exact Hat].
      - intros ->. exact (Hend ltac:(discriminate)).
      - intros Hne. rewrite <- (endswith_char_cons _ c) by exact Hne.
        apply Hend. discriminate. }
    destruct (Re.delimiter_search (Ascii.eqb c Py.newline) (before +:+ rest));
      [discriminate|contradiction].
Qed.

(** The pre-filter answers whether the document has a delimiter line:
    three hyphens at the start of a line, followed by whitespace only up
    to the end of a line. *)
Theorem maybe_has_yaml_frontmatter_iff_delimiter_line :
  forall content,
    YamlHelper.truthy (YamlHelper.maybe_has_yaml_frontmatter content) = true
    <-> has_delimiter_line content.
Proof.
  intros content. unfold YamlHelper.maybe_has_yaml_frontmatter. split.
  - destruct (Re.delimiter_search true content) as [mt|] eqn:Hs; [|discriminate].
    intros _. destruct (delimiter_search_sound _ _ _ Hs) as (Heq & Hstart & Hm & Hend).
    exists (Re.before mt), (Re.matched mt), (Re.after mt).
    split; [exact Heq|]. split; [|split; assumption].
    destruct Hstart as [[Hnil _]|Hnl]; [left|right]; assumption.
  - intros (before & d & after & -> & Hstart & Hd & Hend).
    pose proof (delimiter_search_complete before true (d +:+ after)
                  (fun _ => eq_refl)) as Hfound.
    destruct (Re.delimiter_search true (before +:+ d +:+ after)); [reflexivity|].
    exfalso. apply Hfound; [|apply delimiter_at_complete; assumption|reflexivity].
    intros Hne. destruct Hstart as [Hnil|Hnl]; [contradiction|exact Hnl].
Qed.



(** The pre-filter finds nothing exactly when the split leaves the
    document in one piece. *)
Theorem no_delimiter_iff_single_segment :
  forall content,
    YamlHelper.maybe_has_yaml_frontmatter content = None
    <-> Re.delimiter_split content 2 = [content].
Proof.
  intros content.
  unfold YamlHelper.maybe_has_yaml_frontmatter, Re.delimiter_split.
  cbn [Re.delimiter_split_from].
  destruct (Re.delimiter_search true content) as [mt|]; split;
    try reflexivity; try discriminate.
  intros H. exfalso.
  injection H as _ Htail.
  destruct (Re.delimiter_search _ (Re.after mt)); discriminate.
Qed.

(** When the split gives three segments, the document is these segments
    with a delimiter text between each two: the middle segment and the
    remainder are pieces of the document, and each delimiter starts a
    line and runs to the end of a line. *)
Theorem three_segments_rebuild_document :
  forall content p0 p1 p2,
    Re.delimiter_split content 2 = [p0; p1; p2] ->
    exists d1 d2,
      content = p0 +:+ d1 +:+ p1 +:+ d2 +:+ p2
      /\ delimiter_text d1 /\ delimiter_text d2
      /\ at_line_start p0 /\ at_line_start (p0 +:+ d1 +:+ p1)
      /\ at_line_end (p1 +:+ d2 +:+ p2) /\ at_line_end p2.
Proof.
  intros content p0 p1 p2.
  unfold Re.delimiter_split. cbn [Re.delimiter_split_from].
  destruct (Re.delimiter_search true content) as [m1|] eqn:H1; [|discriminate].
  destruct (Re.delimiter_search _ (Re.after m1)) as [m2|] eqn:H2; [|discriminate].
  intros [= <- <- <-].
  destruct (delimiter_search_sound _ _ _ H1) as (E1 & S1 & D1 & L1).
  destruct (delimiter_search_sound _ _ _ H2) as (E2 & S2 & D2 & L2).
  exists (Re.matched m1), (Re.matched m2).
  split; [rewrite <- E2; exact E1|].
  split; [exact D1|]. split; [exact D2|].
  split; [destruct S1 as [[Hnil _]|Hnl]; [left|right]; assumption|].
  split; [|split; [rewrite <- E2; exact L1|exact L2]].
  right. destruct D1 as (w & Hd1 & _).
  destruct S2 as [[Hnil Hbol]|Hnl].
  - rewrite Hnil, string_app_nil_r, endswith_char_app; [exact Hbol|].
    rewrite Hd1. discriminate.
  - assert (Re.before m2 <> "") as Hne
      by (intros Hnil; rewrite Hnil in Hnl; discriminate).
    rewrite endswith_char_app, endswith_char_app; [exact Hnl|exact Hne|].
    destruct (Re.matched m1); [rewrite Hd1 in *; discriminate|discriminate].
Qed.

End PatternFacts.

(** ** Further facts about the YAML helper *)

Section HelperFacts.

Import YamlHelper.

Variable yaml_value : Type.
Variable yaml_load : string -> YAMLError + option yaml_value.
Variable warn_error : bool.

(** The numbered lines of the window around line [l], as lines 32 to 35
    and 43 to 44 compute them. *)
Lemma window_pairs (lines : list string) (l : Z) :
  Py.zip (Py.range (Z.max (l - 3) 0) (l + 4))
         (Py.slice lines (Z.max (l - 3) 0) (l + 4))
  = map (fun i => (Z.of_nat i, nth i lines ""))
        (seq (Z.to_nat (Z.max (l - 3) 0))
             (Nat.min (Z.to_nat (l + 4)) (length lines)
              - Z.to_nat (Z.max (l - 3) 0))).
Proof.
  destruct (Z_le_gt_dec (l + 4) 0) as [Hneg|Hpos].
  - replace (Z.to_nat (l + 4)) with 0%nat by lia.
    unfold Py.range.
    replace (Z.to_nat (l + 4 - Z.max (l - 3) 0)) with 0%nat by lia.
    reflexivity.
  - rewrite range_from_nat by lia.
    unfold Py.slice, Py.slice_bound.
    destruct (Z.ltb_spec (Z.max (l - 3) 0) 0) as [?|_]; [lia|].
    destruct (Z.ltb_spec (l + 4) 0) as [?|_]; [lia|].
    set (lo := Z.to_nat (Z.max (l - 3) 0)).
    set (hi := Z.to_nat (l + 4)).
    set (n := length lines).
    destruct (le_lt_dec n lo) as [Hout|Hin].
    + replace (Nat.min hi n - Nat.min lo n)%nat with 0%nat by lia.
      replace (Nat.min hi n - lo)%nat with 0%nat by lia.
      unfold Py.zip. rewrite firstn_O, combine_nil_r. reflexivity.
    + replace (Nat.min lo n) with lo by lia.
      apply zip_numbers_slice; subst lo hi n; lia.
Qed.

(** The window that [contextualized_yaml_error] renders has at most
    seven lines; when the mark is on a line of the document, that line
    is in the window under its own number; when the mark lies three
    lines or more past the end, or four lines or more before the start,
    the window is empty. *)
Theorem context_window_holds_mark_line :
  forall raw_contents l,
    let lines := Py.split Py.newline raw_contents in
    let shown :=
      Py.zip (Py.range (Z.max (l - 3) 0) (l + 4))
             (Py.slice lines (Z.max (l - 3) 0) (l + 4)) in
    prefix_with_line_numbers raw_contents (Z.max (l - 3) 0) (l + 4)
    = Py.join Py.nl (map (fun '(i, line) => line_no (i + 1) line 3) shown)
    /\ (length shown <= 7)%nat
    /\ (0 <= l < Z.of_nat (length lines) ->
        In (l, nth (Z.to_nat l) lines "") shown)
    /\ (Z.of_nat (length lines) + 3 <= l \/ l + 4 <= 0 -> shown = []).
Proof.
  intros raw_contents l lines shown. split; [reflexivity|].
  subst shown. rewrite window_pairs.
  split; [rewrite length_map, length_seq; lia|]. split.
  - intros Hl. apply in_map_iff. exists (Z.to_nat l).
    split; [f_equal; lia|]. apply in_seq. lia.
  - intros Hout.
    replace (Nat.min (Z.to_nat (l + 4)) (length lines)
             - Z.to_nat (Z.max (l - 3) 0))%nat with 0%nat by lia.
    reflexivity.
Qed.

Lemma string_length_app (a b : string) :
  String.length (a +:+ b) = (String.length a + String.length b)%nat.
Proof.
  induction a as [|x a IH]; [reflexivity|].
  rewrite string_app_cons. cbn [String.length]. rewrite IH. reflexivity.
Qed.

Lemma spaces_length (n : nat) : String.length (Py.spaces n) = n.
Proof. induction n as [|n IH]; [reflexivity|]. cbn. rewrite IH. reflexivity. Qed.

(** A numbered line is the line after a label and a bar; the label is
    never cut, so the bar stands right after the number once the number
    is wider than the label width, and at column [width] before. *)
Theorem line_no_length :
  forall i line width,
    String.length (line_no i line width)
    = (Nat.max (String.length (Py.str_of_int i)) (Z.to_nat width)
       + 2 + String.length line)%nat
    /\ exists label,
         line_no i line width = label +:+ "| " +:+ line
         /\ Py.startswith (Py.str_of_int i) label = true.
Proof.
  intros i line width. unfold line_no, Py.ljust. split.
  - rewrite !string_length_app, spaces_length. cbn [String.length]. lia.
  - eexists. split; [reflexivity|]. apply startswith_self_app.
Qed.

(** A direct decode gives the decoded value, and never lets a decode
    error return: an error with a mark becomes a validation error that
    carries the contextualized message, an error without the attribute
    one that carries the raw text, and an error whose mark is [None]
    escapes as an [AttributeError]. *)
Theorem load_yaml_text_outcomes :
  forall contents,
    (forall v, yaml_load contents = inr v ->
               load_yaml_text yaml_value yaml_load contents = Returned v)
    /\ (forall e, yaml_load contents = inl e ->
                  forall v, load_yaml_text yaml_value yaml_load contents
                            <> Returned v)
    /\ (forall mark text,
           yaml_load contents = inl (MarkedYAMLError (Some mark) text) ->
           load_yaml_text yaml_value yaml_load contents
           = Raised (DbtValidationError
                       (YAML_ERROR_MESSAGE (line mark + 1)
                          (render_window
                             (context_window (Py.split Py.newline contents)
                                (line mark)))
                          text)))
    /\ (forall text,
           yaml_load contents = inl (PlainYAMLError text) ->
           load_yaml_text yaml_value yaml_load contents
           = Raised (DbtValidationError text))
    /\ (forall text,
           yaml_load contents = inl (MarkedYAMLError None text) ->
           load_yaml_text yaml_value yaml_load contents = Raised AttributeError).
Proof.
  intros contents. unfold load_yaml_text, safe_load. split_and!.
  - intros v ->. reflexivity.
  - intros e -> v.
    destruct e as [text|[mark|] text]; cbn; discriminate.
  - intros mark text ->. cbn.
    rewrite prefix_with_line_numbers_window. reflexivity.
  - intros text ->. reflexivity.
  - intros text ->. reflexivity.
Qed.




(** After the guard, a decode error whose mark is [None] is swallowed
    under [ignore] but escapes as an [AttributeError] under
    [warn_or_error], before the channel is used; an error without the
    attribute reaches the channel once, as the banner followed by the
    raw text. *)
Theorem decode_errors_without_position :
  forall content p0 seg rest text log,
    (yaml_load seg = inl (MarkedYAMLError None text) ->
     frontmatter_of_parts yaml_value yaml_load warn_error content WarnOrError
       [p0; seg; rest] log
     = (Raised AttributeError, log))
    /\ (yaml_load seg = inl (PlainYAMLError text) ->
        let message := "Error parsing YAML frontmatter!" +:+ text in
        frontmatter_of_parts yaml_value yaml_load warn_error content WarnOrError
          [p0; seg; rest] log
        = (if warn_error then Raised (DbtValidationError message)
           else Returned (None, content),
           (log ++ [DbtValidationError message])%list)).
Proof.
  intros content p0 seg rest text log. split.
  - intros Hload. rewrite frontmatter_of_three_parts, Hload. reflexivity.
  - intros Hload message. rewrite frontmatter_of_three_parts, Hload.
    unfold frontmatter_decode_failed, bind, lift, warn_or_error, ret. cbn.
    fold message. destruct warn_error; reflexivity.
Qed.

End HelperFacts.

(** ** Further facts about the template scanner *)

Section ScannerFacts.

Import Docs.

Variable DOCS_PREFIX : string.
Variable project : Type.
Variable get_fqn : string -> project -> list string.

Local Abbreviation parse_macro := (Docs.parse_macro DOCS_PREFIX project get_fqn).
Local Abbreviation parse_macros := (Docs.parse_macros DOCS_PREFIX project get_fqn).
Local Abbreviation parse_ast := (Docs.parse_ast DOCS_PREFIX project get_fqn).

(** Induction on a tree, with the property known for every child. *)
Lemma node_induction (P : Node -> Prop) :
  (forall n, (forall c, In c (iter_child_nodes n) -> P c) -> P n) ->
  forall n, P n.
Proof.
  intros step. fix IH 1. intros n. apply step.
  destruct n as [b|nm b|ns|d|cs]; cbn [iter_child_nodes].
  - induction b as [|x r IHr]; intros c Hc; [destruct Hc|].
    destruct Hc as [<-|Hc]; [apply IH|apply IHr, Hc].
  - induction b as [|x r IHr]; intros c Hc; [destruct Hc|].
    destruct Hc as [<-|Hc]; [apply IH|apply IHr, Hc].
  - induction ns as [|x r IHr]; intros c Hc; [destruct Hc|].
    destruct Hc as [<-|Hc]; [apply IH|apply IHr, Hc].
  - intros c [].
  - induction cs as [|x r IHr]; intros c Hc; [destruct Hc|].
    destruct Hc as [<-|Hc]; [apply IH|apply IHr, Hc].
Qed.

(** The scan of a node is the scan of its children, each child first if
    it is a macro and then what lies below it. *)
Lemma find_all_macros_children (n : Node) :
  find_all_macros n
  = flat_map (fun child => (macro_of child ++ find_all_macros child)%list)
             (iter_child_nodes n).
Proof.
  assert (forall l,
             (fix descend (l : list Node) : list (string * list Node) :=
                match l with
                | [] => []
                | child :: rest =>
                    (match child with
                     | Macro nm b => [(nm, b)]
                     | _ => []
                     end ++ find_all_macros child ++ descend rest)%list
                end) l
             = flat_map (fun child => (macro_of child ++ find_all_macros child)%list) l)
    as Hdescend.
  { induction l as [|child rest IH]; [reflexivity|].
    cbn [flat_map]. rewrite IH, <- app_assoc. reflexivity. }
  destruct n; cbn [find_all_macros iter_child_nodes];
    try apply Hdescend; reflexivity.
Qed.

(** The scan finds exactly the macro definitions that lie below the
    root, at any depth. *)
Theorem find_all_macros_iff_descendant :
  forall ast nm body,
    In (nm, body) (find_all_macros ast) <-> descendant (Macro nm body) ast.
Proof.
  intros ast nm body. split.
  - revert ast. apply (node_induction
      (fun n => In (nm, body) (find_all_macros n) -> descendant (Macro nm body) n)).
    intros n IH Hin. rewrite find_all_macros_children in Hin.
    apply in_flat_map in Hin as (c & Hc & Hin).
    apply in_app_or in Hin as [Hown|Hbelow].
    + destruct c; cbn in Hown; try contradiction.
      destruct Hown as [[= -> ->]|[]]. apply descendant_child, Hc.
    + apply (descendant_deeper _ n c Hc), (IH c Hc), Hbelow.
  - induction 1 as [n Hc|n c Hc _ IH]; rewrite find_all_macros_children;
      apply in_flat_map.
    + exists (Macro nm body). split; [exact Hc|]. left. reflexivity.
    + exists c. split; [exact Hc|]. apply in_or_app. right. exact IH.
Qed.

(** When the package of the file is unknown to [all_projects], the scan
    yields no record at all: it runs to its end if no macro name begins
    with the prefix, and raises [KeyError] at the first that does. *)
Lemma parse_macros_unknown_package all_projects docfile :
  all_projects !! package_name docfile = None ->
  forall macros,
    gen_items (parse_macros all_projects docfile macros) = []
    /\ gen_end (parse_macros all_projects docfile macros)
       = if existsb (Py.startswith DOCS_PREFIX) (map fst macros)
         then Some (KeyError (package_name docfile)) else None.
Proof.
  intros Hnone. induction macros as [|macro rest [IHitems IHend]];
    [split; reflexivity|].
  cbn [Docs.parse_macros map existsb]. unfold Docs.parse_macro.
  rewrite Hnone.
  destruct (Py.startswith DOCS_PREFIX (fst macro)); cbn; [split; reflexivity|].
  split; assumption.
Qed.

Theorem scan_with_unknown_package :
  forall all_projects docfile ast,
    all_projects !! package_name docfile = None ->
    gen_items (parse_ast all_projects docfile ast) = []
    /\ gen_end (parse_ast all_projects docfile ast)
       = if existsb (Py.startswith DOCS_PREFIX) (map fst (find_all_macros ast))
         then Some (KeyError (package_name docfile)) else None.
Proof.
  intros all_projects docfile ast Hnone.
  apply parse_macros_unknown_package, Hnone.
Qed.

(** Every record of a scan belongs to the scanned file, and its unique
    identifier is the package name of that file, a dot and its name. *)
Lemma parse_macros_items all_projects docfile macros parsed :
  In parsed (gen_items (parse_macros all_projects docfile macros)) ->
  Docs.docfile parsed = docfile
  /\ unique_id parsed = package_name docfile +:+ "." +:+ name parsed.
Proof.
  induction macros as [|macro rest IH]; [intros []|].
  cbn [Docs.parse_macros].
  destruct (parse_macro all_projects docfile macro) as [|found|e] eqn:Hturn.
  - exact IH.
  - intros [<-|Hin]; [|exact (IH Hin)].
    apply parse_macro_yield in Hturn as (_ & Hfile & _ & Hid & _).
    split; assumption.
  - intros [].
Qed.

End ScannerFacts.

(** ** Further facts about the registry builder *)

Section BuilderFacts.

Import Docs.

Variable DOCS_PREFIX : string.
Variable project : Type.
Variable get_fqn : string -> project -> list string.
Variable jinja_parse : string -> string + Node.
Variable find_matching : string -> list string -> string -> list FileMatch.
Variable load_file_contents : string -> string.

Local Abbreviation parse := (Docs.parse DOCS_PREFIX project get_fqn jinja_parse).
Local Abbreviation collect_files :=
  (Docs.collect_files DOCS_PREFIX project get_fqn jinja_parse).
Local Abbreviation batch_records :=
  (Docs.batch_records DOCS_PREFIX project get_fqn jinja_parse).
Local Abbreviation load_file := (Docs.load_file find_matching load_file_contents).
Local Abbreviation load_and_parse :=
  (Docs.load_and_parse DOCS_PREFIX project get_fqn jinja_parse
     find_matching load_file_contents).

(** The inner loop never changes an entry the registry already has. *)
Lemma collect_keeps_entries (records : gen ParsedDocumentation) :
  forall (to_return : gmap string ParsedDocumentation) k r,
    to_return !! k = Some r ->
    snd (collect records to_return) !! k = Some r.
Proof.
  induction records as [|parsed rest IH|e]; intros to_return k r Hk;
    cbn [collect]; try exact Hk.
  destruct (to_return !! unique_id parsed) as [stored|] eqn:Hlook; [exact Hk|].
  apply IH. rewrite lookup_insert_ne; [exact Hk|]. congruence.
Qed.

(** Every entry of the registry after the inner loop was there before or
    is a record of the generator, under its own identifier. *)
Lemma collect_entries_origin (records : gen ParsedDocumentation) :
  forall (to_return : gmap string ParsedDocumentation) k r,
    snd (collect records to_return) !! k = Some r ->
    to_return !! k = Some r
    \/ In r (gen_items records) /\ unique_id r = k.
Proof.
  induction records as [|parsed rest IH|e]; intros to_return k r Hk;
    cbn [collect] in Hk; try (left; exact Hk).
  destruct (to_return !! unique_id parsed) as [stored|] eqn:Hlook;
    [left; exact Hk|].
  destruct (IH _ _ _ Hk) as [Hins|[Hin Hid]].
  - apply lookup_insert_Some in Hins as [[<- <-]|[_ Hold]].
    + right. split; [left|]; reflexivity.
    + left. exact Hold.
  - right. split; [right; exact Hin|exact Hid].
Qed.

(** When no identifier comes twice, the inner loop consumes the whole
    generator and stores every record. *)
Lemma collect_without_duplicate (records : gen ParsedDocumentation) :
  forall seen to_return,
    registry_of seen to_return ->
    List.NoDup (map unique_id (seen ++ gen_items records)%list) ->
    exists to_return',
      collect records to_return = (end_result records, to_return')
      /\ registry_of (seen ++ gen_items records)%list to_return'.
Proof.
  induction records as [|parsed rest IH|e]; intros seen to_return Hreg Hnodup.
  - exists to_return. cbn. rewrite app_nil_r. split; [reflexivity|exact Hreg].
  - cbn [collect gen_items] in *.
    destruct (to_return !! unique_id parsed) as [stored|] eqn:Hlook.
    + exfalso. apply Hreg in Hlook as [Hin Hid].
      rewrite map_app in Hnodup. cbn [map] in Hnodup.
      apply List.NoDup_remove_2 in Hnodup. apply Hnodup.
      apply in_or_app. left. rewrite <- Hid. apply in_map, Hin.
    + destruct (IH (seen ++ [parsed])%list (<[unique_id parsed := parsed]> to_return))
        as (to_return' & Hrun & Hreg').
      * apply registry_of_insert; assumption.
      * rewrite <- app_assoc. exact Hnodup.
      * exists to_return'. rewrite <- app_assoc in Hreg'.
        split; [exact Hrun|exact Hreg'].
  - exists to_return. cbn. rewrite app_nil_r. split; [reflexivity|exact Hreg].
Qed.

Lemma gen_items_then {A} (g1 g2 : gen A) (a : A) :
  In a (gen_items (gen_then g1 g2)) ->
  In a (gen_items g1) \/ In a (gen_items g2).
Proof.
  induction g1 as [|x rest IH|e]; cbn; [right; assumption| |intros []].
  intros [<-|Hin]; [left; left; reflexivity|].
  destruct (IH Hin); [left; right|right]; assumption.
Qed.

(** Every record of a batch comes from one of its files. *)
Lemma batch_records_items all_projects root_project docfiles parsed :
  In parsed (gen_items (batch_records all_projects root_project docfiles)) ->
  In (Docs.docfile parsed) docfiles
  /\ unique_id parsed
     = package_name (Docs.docfile parsed) +:+ "." +:+ name parsed.
Proof.
  induction docfiles as [|docfile rest IH]; [intros []|].
  cbn [Docs.batch_records foldr]. intros Hin.
  apply gen_items_then in Hin as [Hhere|Hlater].
  - unfold Docs.parse in Hhere.
    destruct (jinja_parse (file_contents docfile)) as [msg|ast]; [destruct Hhere|].
    apply parse_macros_items in Hhere as [Hfile Hid].
    rewrite Hfile. split; [left; reflexivity|exact Hid].
  - destruct (IH Hlater) as [Hfile Hid]. split; [right; exact Hfile|exact Hid].
Qed.

Lemma path_join_keeps_path (a b : string) :
  exists before, path_join a b = before +:+ b.
Proof.
  unfold path_join. destruct (Py.startswith "/" b).
  - exists "". reflexivity.
  - destruct (String.eqb a "" || Py.endswith_char "/" a)%bool.
    + exists a. reflexivity.
    + exists (a +:+ "/"). apply eq_sym, string_app_assoc.
Qed.

(** What every file of [load_file] carries. *)
Lemma load_file_fields package_name root_dir relative_dirs docfile :
  In docfile (load_file package_name root_dir relative_dirs) ->
  Docs.package_name docfile = package_name
  /\ root_path docfile = root_dir
  /\ resource_type docfile = "documentation"
  /\ exists before, original_file_path docfile = before +:+ path docfile.
Proof.
  unfold Docs.load_file. intros Hin.
  apply in_map_iff in Hin as (file_match & <- & _).
  cbn. split_and!; try reflexivity. apply path_join_keeps_path.
Qed.

(** Discovery is read once for the Markdown pattern and once for the SQL
    pattern, in this order; every file found gives one record, which
    carries the package name and the root directory of the call, the
    documentation type, the relative path of the file as its path, and
    an original path that ends with that path. *)
Theorem load_file_records :
  forall package_name root_dir relative_dirs,
    map path (load_file package_name root_dir relative_dirs)
    = map relative_path
          (find_matching root_dir relative_dirs "[!.#~]*.md"
           ++ find_matching root_dir relative_dirs "[!.#~]*.sql")%list
    /\ forall docfile,
         In docfile (load_file package_name root_dir relative_dirs) ->
         Docs.package_name docfile = package_name
         /\ root_path docfile = root_dir
         /\ resource_type docfile = "documentation"
         /\ exists before, original_file_path docfile = before +:+ path docfile.
Proof.
  intros package_name root_dir relative_dirs. split.
  - unfold Docs.load_file. rewrite map_map. cbn [flat_map].
    rewrite app_nil_r. reflexivity.
  - intros docfile. apply load_file_fields.
Qed.

(** The loop over the files never changes an entry the registry already
    has, whether it ends or raises. *)
Theorem collect_files_keeps_entries :
  forall all_projects root_project docfiles
         (to_return : gmap string ParsedDocumentation) k r,
    to_return !! k = Some r ->
    snd (collect_files all_projects root_project docfiles to_return) !! k = Some r.
Proof.
  intros all_projects root_project docfiles to_return k r Hk.
  rewrite collect_files_batch. apply collect_keeps_entries, Hk.
Qed.


(** Whatever the outcome of the call, every record in the dictionary is
    stored under its own unique identifier, which is the package name of
    the call, a dot and the name of the record, and the record carries
    the package name, the root directory and the documentation type. *)
Theorem registry_entries_are_well_formed :
  forall package_name root_project all_projects root_dir relative_dirs k r,
    snd (load_and_parse package_name root_project all_projects root_dir
           relative_dirs) !! k = Some r ->
    k = unique_id r
    /\ unique_id r = package_name +:+ "." +:+ name r
    /\ Docs.package_name (Docs.docfile r) = package_name
    /\ root_path (Docs.docfile r) = root_dir
    /\ resource_type (Docs.docfile r) = "documentation".
Proof.
  intros package_name root_project all_projects root_dir relative_dirs k r.
  unfold Docs.load_and_parse. rewrite collect_files_batch.
  set (docfiles := load_file package_name root_dir relative_dirs).
  intros Hk.
  assert (snd (collect (batch_records all_projects root_project docfiles) ∅) !! k
          = Some r) as Hentry.
  { destruct (collect (batch_records all_projects root_project docfiles) ∅)
      as [[[]|e] to_return]; exact Hk. }
  apply collect_entries_origin in Hentry as [Hempty|[Hin Hid]].
  - rewrite lookup_empty in Hempty. discriminate.
  - apply batch_records_items in Hin as [Hfile Hunique].
    destruct (load_file_fields _ _ _ _ Hfile) as (Hpkg & Hroot & Htype & _).
    rewrite Hpkg in Hunique. split_and!; try assumption. symmetry. exact Hid.
Qed.

Lemma NoDup_map_injective {A B} (f : A -> B) (l : list A) :
  (forall a b, f a = f b -> a = b) -> List.NoDup l -> List.NoDup (map f l).
Proof.
  intros Hinj. induction 1 as [|x l Hx _ IH]; cbn; constructor; [|exact IH].
  intros Hin. apply in_map_iff in Hin as (y & Hy & Hin).
  apply Hinj in Hy. subst y. contradiction.
Qed.

(** Within one call the unique identifiers are distinct exactly when the
    names are. *)
Lemma batch_identifiers_distinct package_name root_project all_projects
    root_dir relative_dirs :
  let records :=
    gen_items (batch_records all_projects root_project
                 (load_file package_name root_dir relative_dirs)) in
  List.NoDup (map unique_id records) <-> List.NoDup (map name records).
Proof.
  intros records.
  assert (map unique_id records
          = map (fun n => package_name +:+ "." +:+ n) (map name records)) as ->.
  { rewrite map_map. apply map_ext_in. intros r Hin.
    apply batch_records_items in Hin as [Hfile ->].
    destruct (load_file_fields _ _ _ _ Hfile) as (-> & _). reflexivity. }
  split; [apply List.NoDup_map_inv|].
  apply NoDup_map_injective. intros a b Heq.
  apply (String.app_inj package_name) in Heq.
  apply (String.app_inj ".") in Heq. exact Heq.
Qed.

(** The call returns a registry exactly when no scan raises and no two
    records of the batch have the same name; the registry then holds
    exactly the records of the batch. When a scan raises and the names
    before it are distinct, the call raises that same error. *)
Theorem load_and_parse_returns_iff :
  forall package_name root_project all_projects root_dir relative_dirs,
    let batch :=
      batch_records all_projects root_project
        (load_file package_name root_dir relative_dirs) in
    ((exists registry,
         fst (load_and_parse package_name root_project all_projects root_dir
                relative_dirs) = Returned registry)
     <-> gen_end batch = None /\ List.NoDup (map name (gen_items batch)))
    /\ (forall registry state,
           load_and_parse package_name root_project all_projects root_dir
             relative_dirs = (Returned registry, state) ->
           state = registry /\ registry_of (gen_items batch) registry)
    /\ (forall e,
           gen_end batch = Some e ->
           List.NoDup (map name (gen_items batch)) ->
           fst (load_and_parse package_name root_project all_projects root_dir
                  relative_dirs) = Raised e).
Proof.
  intros package_name root_project all_projects root_dir relative_dirs batch.
  pose proof (batch_identifiers_distinct package_name root_project all_projects
                root_dir relative_dirs) as Hnames. cbn zeta in Hnames.
  fold batch in Hnames.
  assert (Hrun : List.NoDup (map unique_id (gen_items batch)) ->
                 exists to_return,
                   collect batch ∅ = (end_result batch, to_return)
                   /\ registry_of (gen_items batch) to_return).
  { intros Hnodup.
    apply (collect_without_duplicate batch [] ∅ registry_of_empty Hnodup). }
  assert (Hdup : ~ List.NoDup (map unique_id (gen_items batch)) ->
                 exists stored new to_return,
                   collect batch ∅
                   = (Raised (DuplicateResourceError stored new), to_return)).
  { intros Hnot.
    destruct (collect_stops_at_first_duplicate batch [] ∅ registry_of_empty
                (List.NoDup_nil _) Hnot)
      as (_ & stored & new & _ & to_return & _ & _ & _ & _ & Hraise & _).
    exists stored, new, to_return. exact Hraise. }
  unfold Docs.load_and_parse. rewrite collect_files_batch. fold batch.
  destruct (ListDec.NoDup_dec string_dec (map unique_id (gen_items batch)))
    as [Hnodup|Hnot].
  - destruct (Hrun Hnodup) as (to_return & -> & Hreg).
    unfold end_result. split_and!.
    + split.
      * intros [registry Hret]. split; [|apply Hnames, Hnodup].
        destruct (gen_end batch); [discriminate|reflexivity].
      * intros [-> _]. exists to_return. reflexivity.
    + intros registry state Hret.
      destruct (gen_end batch); [discriminate|].
      injection Hret as <- <-. split; [reflexivity|exact Hreg].
    + intros e -> _. reflexivity.
  - destruct (Hdup Hnot) as (stored & new & to_return & ->). split_and!.
    + split.
      * intros [registry Hret]. discriminate.
      * intros [_ Hn]. contradiction Hnot. apply Hnames, Hn.
    + intros registry state Hret. discriminate.
    + intros e _ Hn. contradiction Hnot. apply Hnames, Hn.
Qed.

End BuilderFacts.

(** ** The further facts at concrete inputs *)

Lemma maybe_has_yaml_frontmatter_iff_delimiter_line_witness :
  YamlHelper.truthy (YamlHelper.maybe_has_yaml_frontmatter doc_one_delimiter)
  = true.
Proof.
  apply (proj2 (maybe_has_yaml_frontmatter_iff_delimiter_line doc_one_delimiter)).
  exists "", "---", (Py.nl +:+ "BODY").
  split; [reflexivity|]. split; [left; reflexivity|].
  split; [exists ""; split; reflexivity|right; reflexivity].
Defined.

Lemma no_delimiter_iff_single_segment_witness :
  Re.delimiter_split doc_plain 2 = [doc_plain].
Proof.
  apply (proj1 (no_delimiter_iff_single_segment doc_plain)). reflexivity.
Defined.

Lemma three_segments_rebuild_document_witness :
  exists d1 d2,
    doc_round_trip
    = "" +:+ d1 +:+ (Py.nl +:+ "a: 1" +:+ Py.nl) +:+ d2 +:+ (Py.nl +:+ "BODY")
    /\ delimiter_text d1 /\ delimiter_text d2
    /\ at_line_start ""
    /\ at_line_start ("" +:+ d1 +:+ (Py.nl +:+ "a: 1" +:+ Py.nl))
    /\ at_line_end ((Py.nl +:+ "a: 1" +:+ Py.nl) +:+ d2 +:+ (Py.nl +:+ "BODY"))
    /\ at_line_end (Py.nl +:+ "BODY").
Proof.
  apply (three_segments_rebuild_document doc_round_trip).
  reflexivity.
Defined.

Lemma context_window_holds_mark_line_witness :
  In (10, nth (Z.to_nat 10) (Py.split Py.newline doc_twenty_lines) "")
     (Py.zip (Py.range (Z.max (10 - 3) 0) (10 + 4))
             (Py.slice (Py.split Py.newline doc_twenty_lines)
                (Z.max (10 - 3) 0) (10 + 4))).
Proof.
  destruct (context_window_holds_mark_line doc_twenty_lines 10)
    as (_ & _ & Hshown & _).
  apply Hshown. vm_compute. split; [discriminate|reflexivity].
Defined.

Lemma load_yaml_text_outcomes_witness :
  YamlHelper.load_yaml_text _ sample_yaml_load (Py.nl +:+ "a: [" +:+ Py.nl)
  = Raised
      (YamlHelper.DbtValidationError
         (YamlHelper.YAML_ERROR_MESSAGE 3
            (render_window
               (context_window
                  (Py.split Py.newline (Py.nl +:+ "a: [" +:+ Py.nl)) 2))
            "while parsing a flow node")).
Proof.
  destruct (load_yaml_text_outcomes _ sample_yaml_load
              (Py.nl +:+ "a: [" +:+ Py.nl)) as (_ & _ & Hmarked & _).
  apply (Hmarked {| YamlHelper.line := 2; YamlHelper.column := 0 |}).
  reflexivity.
Defined.


Lemma decode_errors_without_position_witness :
  YamlHelper.frontmatter_of_parts _ unreadable_yaml_load false doc_malformed
    YamlHelper.WarnOrError [""; Py.nl +:+ "a: [" +:+ Py.nl; Py.nl +:+ "BODY"] []
  = (Returned (None, doc_malformed),
     [YamlHelper.DbtValidationError
        ("Error parsing YAML frontmatter!" +:+ "unacceptable character")]).
Proof.
  apply (proj2 (decode_errors_without_position _ unreadable_yaml_load false
                  doc_malformed "" (Py.nl +:+ "a: [" +:+ Py.nl)
                  (Py.nl +:+ "BODY") "unacceptable character" [])).
  reflexivity.
Defined.

Lemma find_all_macros_iff_descendant_witness :
  In ("dbt_docs__inner", [Docs.Output [Docs.TemplateData "deep"]])
     (Docs.find_all_macros ast_nested).
Proof.
  apply (proj2 (find_all_macros_iff_descendant ast_nested "dbt_docs__inner"
                  [Docs.Output [Docs.TemplateData "deep"]])).
  eapply descendant_deeper; [left; reflexivity|].
  eapply descendant_deeper; [left; reflexivity|].
  apply descendant_child. left. reflexivity.
Defined.

Lemma scan_with_unknown_package_witness :
  Docs.gen_items
    (Docs.parse_ast dbt_docs_prefix unit sample_get_fqn ∅ sample_docfile ast_hello)
  = []
  /\ Docs.gen_end
       (Docs.parse_ast dbt_docs_prefix unit sample_get_fqn ∅ sample_docfile
          ast_hello)
     = Some (Docs.KeyError "pkg").
Proof.
  apply (scan_with_unknown_package dbt_docs_prefix unit sample_get_fqn ∅
           sample_docfile ast_hello).
  reflexivity.
Defined.

Lemma load_file_records_witness :
  Docs.package_name (Docs.docfile parsed_from_a) = "pkg"
  /\ Docs.root_path (Docs.docfile parsed_from_a) = "/project"
  /\ Docs.resource_type (Docs.docfile parsed_from_a) = "documentation"
  /\ exists before,
       Docs.original_file_path (Docs.docfile parsed_from_a)
       = before +:+ Docs.path (Docs.docfile parsed_from_a).
Proof.
  apply (proj2 (load_file_records single_find_matching sample_load_file_contents
                  "pkg" "/project" ["docs"])).
  left. reflexivity.
Defined.

Lemma collect_files_keeps_entries_witness :
  snd (Docs.collect_files dbt_docs_prefix unit sample_get_fqn sample_jinja_parse
         sample_projects tt [sample_docfile]
         {[ "pkg.foo" := parsed_hello_again ]})
  !! "pkg.foo" = Some parsed_hello_again.
Proof.
  apply (collect_files_keeps_entries dbt_docs_prefix unit sample_get_fqn
           sample_jinja_parse sample_projects tt [sample_docfile]).
  reflexivity.
Defined.

Lemma registry_entries_are_well_formed_witness :
  "pkg.foo" = Docs.unique_id parsed_from_a
  /\ Docs.unique_id parsed_from_a = "pkg" +:+ "." +:+ Docs.name parsed_from_a
  /\ Docs.package_name (Docs.docfile parsed_from_a) = "pkg"
  /\ Docs.root_path (Docs.docfile parsed_from_a) = "/project"
  /\ Docs.resource_type (Docs.docfile parsed_from_a) = "documentation".
Proof.
  apply (registry_entries_are_well_formed dbt_docs_prefix unit sample_get_fqn
           sample_jinja_parse single_find_matching sample_load_file_contents
           "pkg" tt sample_projects "/project" ["docs"]).
  reflexivity.
Defined.

Lemma load_and_parse_returns_iff_witness :
  exists registry,
    fst (Docs.load_and_parse dbt_docs_prefix unit sample_get_fqn
           sample_jinja_parse single_find_matching sample_load_file_contents
           "pkg" tt sample_projects "/project" ["docs"])
    = Returned registry.
Proof.
  destruct (load_and_parse_returns_iff dbt_docs_prefix unit sample_get_fqn
              sample_jinja_parse single_find_matching sample_load_file_contents
              "pkg" tt sample_projects "/project" ["docs"]) as [Hiff _].
  apply (proj2 Hiff). split; [reflexivity|].
  vm_compute. constructor; [intros []|constructor].
Defined.
